(** * The data-table engine of the dashboard: virtual window, CSV export,
      global filter, table state.

    Shallow embedding of
    - [src/components/table/useVirtualScroll.ts] (module [VirtualScroll]),
    - [src/utils/csvExport.ts]                   (module [CsvExport]),
    - [src/hooks/useDataTable.ts]                (module [UseDataTable]),
    - the export handler of [src/components/table/DataTable.tsx]
      (module [DataTable]).

    Conventions.  JavaScript numbers that hold counts, row indices, pixel
    sizes and scroll offsets are modelled as [Z]; for whole numbers below
    2^53 the double-precision quotient [a / b] followed by [Math.floor] or
    [Math.ceil] equals the exact floor or ceiling, which is what [Z.div]
    computes for a non-zero divisor.  A divisor of zero (JavaScript:
    [Infinity] or [NaN]) is outside the model, and the theorems about the
    window assume a positive row height.  JavaScript strings are modelled as
    [string]; the characters the code inspects (comma, quote, CR, LF, the
    letters A-Z) are ASCII. *)

From Stdlib Require Import ZArith Lia List Ascii Bool Sorted.
From Stdlib Require DecimalString.
From stdpp Require Import gmap strings.
Import ListNotations.

Local Open Scope Z_scope.

(** ** JavaScript numeric helpers *)

(** [Math.floor(a / b)] for a non-zero [b]. *)
Definition floorDiv (a b : Z) : Z := a / b.

(** [Math.ceil(a / b)] for a non-zero [b]. *)
Definition ceilDiv (a b : Z) : Z := - ((- a) / b).

(** The integers [a], [a+1], ..., [a+n-1]. *)
Fixpoint Zupto (n : nat) (a : Z) : list Z :=
  match n with
  | O => []
  | S n' => a :: Zupto n' (a + 1)
  end.

(** The closed integer interval [[a, b]], empty when [b < a]. *)
Definition Zrange (a b : Z) : list Z := Zupto (Z.to_nat (b + 1 - a)) a.

(** ** useVirtualScroll *)

Module VirtualScroll.

Record VirtualScrollOptions := {
  count : Z;
  estimateSize : Z;
  overscan : option Z;
  containerHeight : Z;
  enabled : bool
}.

Record VirtualItem := {
  index : Z;
  start : Z;
  end_ : Z;
  size : Z
}.

(** [const { ..., overscan = 10, ... } = options] *)
Definition overscanOf (o : VirtualScrollOptions) : Z :=
  match overscan o with
  | Some n => n
  | None => 10
  end.

(** [const totalHeight = count * estimateSize] *)
Definition totalHeight (o : VirtualScrollOptions) : Z :=
  count o * estimateSize o.

(** [Math.max(0, Math.floor(scrollTop / estimateSize) - overscan)] *)
Definition startIndex (o : VirtualScrollOptions) (scrollTop : Z) : Z :=
  Z.max 0 (floorDiv scrollTop (estimateSize o) - overscanOf o).

(** [Math.ceil(containerHeight / estimateSize)] *)
Definition visibleCount (o : VirtualScrollOptions) : Z :=
  ceilDiv (containerHeight o) (estimateSize o).

(** [Math.min(count - 1, startIndex + visibleCount + overscan * 2)] *)
Definition endIndex (o : VirtualScrollOptions) (scrollTop : Z) : Z :=
  Z.min (count o - 1)
        (startIndex o scrollTop + visibleCount o + overscanOf o * 2).

Definition mkItem (estimateSize i : Z) : VirtualItem :=
  {| index := i;
     start := i * estimateSize;
     end_ := (i + 1) * estimateSize;
     size := estimateSize |}.

(** [for (let i = startIndex; i <= endIndex; i++) items.push({...})]:
    [trips] iterations starting at [i]. *)
Fixpoint pushItems (estimateSize : Z) (trips : nat) (i : Z)
  : list VirtualItem :=
  match trips with
  | O => []
  | S n => mkItem estimateSize i :: pushItems estimateSize n (i + 1)
  end.

(** The [useMemo] body computing [virtualRows]; [scrollTop] is the hook's
    state, updated by the scroll listener. *)
Definition virtualRows (o : VirtualScrollOptions) (scrollTop : Z)
  : list VirtualItem :=
  if negb (enabled o) || (count o =? 0) then []
  else
    let s := startIndex o scrollTop in
    let e := endIndex o scrollTop in
    pushItems (estimateSize o) (Z.to_nat (e + 1 - s)) s.

(** The two ends of the loop, as a pair. *)
Definition computeWindow (o : VirtualScrollOptions) (scrollTop : Z)
  : Z * Z :=
  (startIndex o scrollTop, endIndex o scrollTop).

End VirtualScroll.

(** The window formula in the words of the specification:
    [rawStart = floor(scrollOffset / rowExtent)],
    [visibleCount = ceil(viewportExtent / rowExtent)],
    [startIndex = max(0, rawStart - overscan)],
    [endIndex = min(totalCount - 1, rawStart + visibleCount + overscan)].
    It is compared with [VirtualScroll.computeWindow] below. *)
Definition specWindow
  (totalCount rowExtent viewportExtent scrollOffset overscan : Z) : Z * Z :=
  let rawStart := floorDiv scrollOffset rowExtent in
  let visibleCount := ceilDiv viewportExtent rowExtent in
  (Z.max 0 (rawStart - overscan),
   Z.min (totalCount - 1) (rawStart + visibleCount + overscan)).

(** The same options with another overscan. *)
Definition withOverscan (n : Z) (o : VirtualScroll.VirtualScrollOptions)
  : VirtualScroll.VirtualScrollOptions :=
  {| VirtualScroll.count := VirtualScroll.count o;
     VirtualScroll.estimateSize := VirtualScroll.estimateSize o;
     VirtualScroll.overscan := Some n;
     VirtualScroll.containerHeight := VirtualScroll.containerHeight o;
     VirtualScroll.enabled := VirtualScroll.enabled o |}.

(** Row [i] occupies the pixels [[i*rowExtent, (i+1)*rowExtent)]; it is
    visible when one of them lies in [[scrollOffset, scrollOffset +
    viewportExtent]]. *)
Definition rowIntersectsViewport
  (rowExtent viewportExtent scrollOffset i : Z) : Prop :=
  exists x : Z,
    scrollOffset <= x <= scrollOffset + viewportExtent /\
    i * rowExtent <= x < (i + 1) * rowExtent.


(** ** JavaScript values and strings *)

(** The values a table cell can hold.  Numbers are the whole numbers. *)
Inductive JsValue :=
| JsNull
| JsUndefined
| JsString (s : string)
| JsNumber (n : Z).

(** Plain objects (row records): property name to value. *)
Abbreviation JsObject := (gmap string JsValue).

(** [obj[key]]: a missing property reads as [undefined]. *)
Definition getProp (obj : JsObject) (key : string) : JsValue :=
  match obj !! key with
  | Some v => v
  | None => JsUndefined
  end.

(** [value == null] *)
Definition isNullish (v : JsValue) : bool :=
  match v with
  | JsNull | JsUndefined => true
  | _ => false
  end.

(** [String(value)] *)
Definition toString (v : JsValue) : string :=
  match v with
  | JsNull => "null"
  | JsUndefined => "undefined"
  | JsString s => s
  | JsNumber n => DecimalString.NilZero.string_of_int (Z.to_int n)
  end.

Definition comma : ascii := ","%char.
Definition dquote : ascii := "034"%char.
Definition LF : ascii := "010"%char.
Definition CR : ascii := "013"%char.

(** The one-character string. *)
Definition str1 (c : ascii) : string := String c EmptyString.

(** The separator of [join('\r\n')]. *)
Definition CRLF : string := String CR (String LF EmptyString).

(** [s.includes(sub)] *)
Fixpoint includes (s sub : string) : bool :=
  String.prefix sub s ||
  match s with
  | EmptyString => false
  | String _ s' => includes s' sub
  end.

(** The global replace of [escapeCSV]: every quote character becomes two. *)
Fixpoint replaceQuotes (str : string) : string :=
  match str with
  | EmptyString => EmptyString
  | String c s' =>
      if Ascii.eqb c dquote
      then String dquote (String dquote (replaceQuotes s'))
      else String c (replaceQuotes s')
  end.

(** [c.toLowerCase()] on the ASCII letters. *)
Definition lowerChar (c : ascii) : ascii :=
  let n := nat_of_ascii c in
  if (Nat.leb 65 n && Nat.leb n 90)%bool then ascii_of_nat (n + 32) else c.

(** [s.toLowerCase()] *)
Fixpoint toLowerCase (s : string) : string :=
  match s with
  | EmptyString => EmptyString
  | String c s' => String (lowerChar c) (toLowerCase s')
  end.

(** [array.join(sep)] on an array of strings. *)
Definition join (sep : string) (parts : list string) : string :=
  String.concat sep parts.

(** ** csvExport *)

Module CsvExport.

(** [accessor: keyof T | ((row: T) => any)] *)
Inductive Accessor :=
| AccessorKey (key : string)
| AccessorFn (fn : JsObject -> JsValue).

Record Column := {
  id : string;
  header : string;
  accessor : Accessor
}.

Definition getCellValue (row : JsObject) (acc : Accessor) : JsValue :=
  match acc with
  | AccessorFn fn => fn row
  | AccessorKey key => getProp row key
  end.

Definition escapeCSV (value : JsValue) : string :=
  if isNullish value then EmptyString
  else
    let str := toString value in
    if includes str (str1 comma) || includes str (str1 dquote)
       || includes str (str1 LF) || includes str (str1 CR)
    then String dquote (replaceQuotes str +:+ str1 dquote)
    else str.

(** The header line and a data line of [generateCSV]. *)
Definition headerLine (columns : list Column) : string :=
  join (str1 comma) (map (fun col => escapeCSV (JsString (header col))) columns).

Definition rowLine (columns : list Column) (row : JsObject) : string :=
  join (str1 comma)
       (map (fun col => escapeCSV (getCellValue row (accessor col))) columns).

Definition generateCSV (columns : list Column) (data : list JsObject)
  : string :=
  let header := headerLine columns in
  let rows := map (rowLine columns) data in
  join CRLF (header :: rows).

End CsvExport.

(** The text a cell contributes to the export: nothing for [null] and
    [undefined], [String(value)] otherwise. *)
Definition cellText (v : JsValue) : string :=
  if isNullish v then EmptyString else toString v.

(** The grid that [generateCSV] serialises: the header labels, then the
    cell texts of every row, in column order. *)
Definition exportedGrid (columns : list CsvExport.Column)
  (data : list JsObject) : list (list string) :=
  map (fun col => CsvExport.header col) columns ::
  map (fun row =>
         map (fun col =>
                cellText (CsvExport.getCellValue row (CsvExport.accessor col)))
             columns)
      data.

(** *** Reading the text back

    A reader for the documented format: fields are separated by commas,
    rows by CR LF; a field that starts with a quote runs to its closing
    quote, a doubled quote inside standing for one quote character.  The
    result of reading a suffix of the text is kept as the field being read,
    the other fields of its row, and the rows after it. *)

Definition Partial : Type := string * list string * list (list string).

Definition pushChar (c : ascii) (t : Partial) : Partial :=
  let '(f, fs, rs) := t in (String c f, fs, rs).

Definition newField (t : Partial) : Partial :=
  let '(f, fs, rs) := t in (EmptyString, f :: fs, rs).

Definition newRow (t : Partial) : Partial :=
  let '(f, fs, rs) := t in (EmptyString, [], (f :: fs) :: rs).

Fixpoint parseFrom (quoted : bool) (s : string) : Partial :=
  match s with
  | EmptyString => (EmptyString, [], [])
  | String c s' =>
      if quoted then
        if Ascii.eqb c dquote then
          match s' with
          | String c' s'' =>
              if Ascii.eqb c' dquote
              then pushChar dquote (parseFrom true s'')
              else parseFrom false s'
          | EmptyString => parseFrom false s'
          end
        else pushChar c (parseFrom true s')
      else
        if Ascii.eqb c comma then newField (parseFrom false s')
        else if Ascii.eqb c CR then
          match s' with
          | String c' s'' =>
              if Ascii.eqb c' LF
              then newRow (parseFrom false s'')
              else pushChar c (parseFrom false s')
          | EmptyString => pushChar c (parseFrom false s')
          end
        else if Ascii.eqb c dquote then parseFrom true s'
        else pushChar c (parseFrom false s')
  end.

Definition parseCSV (text : string) : list (list string) :=
  let '(f, fs, rs) := parseFrom false text in (f :: fs) :: rs.

(** The text in which every row, the last one too, is followed by CR LF. *)
Fixpoint terminatedText (lines : list string) : string :=
  match lines with
  | [] => EmptyString
  | l :: ls => l +:+ CRLF +:+ terminatedText ls
  end.

(** Auxiliary notions for the proofs about the reader. *)

Definition pushStr (str : string) (t : Partial) : Partial :=
  let '(f, fs, rs) := t in (str +:+ f, fs, rs).

Definition startsWithQuote (s : string) : bool :=
  match s with
  | String c _ => Ascii.eqb c dquote
  | EmptyString => false
  end.

(** A row of fields in front of the rows [rs]. *)
Definition toPartial (fields : list string) (rs : list (list string))
  : Partial :=
  match fields with
  | f :: fs => (f, fs, rs)
  | [] => (EmptyString, [], rs)
  end.

(** A line of the export: the escaped values joined by commas. *)
Definition lineOf (values : list JsValue) : string :=
  join (str1 comma) (map CsvExport.escapeCSV values).

(** Reading the export of [columns] and [data] back recovers the header
    labels and the cell values: row 0 of the grid read back holds the label
    of every column at the column's position, and row [r+1] holds, as a
    string, the cell value of data row [r] for every column at the column's
    position. *)
Definition roundTrips (columns : list CsvExport.Column)
  (data : list JsObject) : Prop :=
  let grid := parseCSV (CsvExport.generateCSV columns data) in
  (forall c col,
     nth_error columns c = Some col ->
     exists labels,
       nth_error grid 0 = Some labels /\
       nth_error labels c = Some (CsvExport.header col)) /\
  (forall r row c col,
     nth_error data r = Some row ->
     nth_error columns c = Some col ->
     exists fields s,
       nth_error grid (S r) = Some fields /\
       nth_error fields c = Some s /\
       CsvExport.getCellValue row (CsvExport.accessor col) = JsString s).

(** Every exported cell holds a string. *)
Definition stringCells (columns : list CsvExport.Column)
  (data : list JsObject) : Prop :=
  forall row col, In row data -> In col columns ->
    exists s, CsvExport.getCellValue row (CsvExport.accessor col) = JsString s.

(** [sub] occurs in [s]. *)
Definition isSubstring (sub s : string) : Prop :=
  exists pre post : string, s = pre +:+ sub +:+ post.

(** ** The table instance

    [useReactTable] comes from the table library, which is not part of the
    sources.  The hook and the component only read row models off the
    instance it returns; the instance is modelled as the record of those
    row models. *)

Module TableInstance.

(** A row of a row model: its id and the data element it stands for. *)
Record Row := { id : string; original : JsObject }.

Record Table := {
  getCoreRowModel : list Row;
  getFilteredRowModel : list Row;
  getSortedRowModel : list Row;
  getSelectedRowModel : list Row
}.

End TableInstance.

(** ** useDataTable *)

Module UseDataTable.

(** The state types come from the table library: a sort entry is a column
    id with a direction, a column filter a column id with a value, the row
    selection an object from row id to boolean, the pagination a page index
    and a page size. *)
Record ColumnSort := { id : string; desc : bool }.

Record ColumnFilter := { filterId : string; value : JsValue }.

Record PaginationState := { pageIndex : Z; pageSize : Z }.

(** The five [useState] cells of the hook. *)
Record State := {
  sorting : list ColumnSort;
  columnFilters : list ColumnFilter;
  globalFilter : string;
  rowSelection : gmap string bool;
  pagination : PaginationState
}.

Definition initialState (initialPageSize : Z) : State :=
  {| sorting := [];
     columnFilters := [];
     globalFilter := EmptyString;
     rowSelection := ∅;
     pagination := {| pageIndex := 0; pageSize := initialPageSize |} |}.

Definition setColumnFilters (v : list ColumnFilter) (st : State) : State :=
  {| sorting := sorting st;
     columnFilters := v;
     globalFilter := globalFilter st;
     rowSelection := rowSelection st;
     pagination := pagination st |}.

Definition setGlobalFilter (v : string) (st : State) : State :=
  {| sorting := sorting st;
     columnFilters := columnFilters st;
     globalFilter := v;
     rowSelection := rowSelection st;
     pagination := pagination st |}.

Definition setRowSelection (v : gmap string bool) (st : State) : State :=
  {| sorting := sorting st;
     columnFilters := columnFilters st;
     globalFilter := globalFilter st;
     rowSelection := v;
     pagination := pagination st |}.

(** [setPagination(updater)] *)
Definition setPagination (updater : PaginationState -> PaginationState)
  (st : State) : State :=
  {| sorting := sorting st;
     columnFilters := columnFilters st;
     globalFilter := globalFilter st;
     rowSelection := rowSelection st;
     pagination := updater (pagination st) |}.

(** The cells of a table row, as [row.getAllCells()] followed by
    [cell.getValue()] gives them. *)
Definition globalFilterFn (cellValues : list JsValue) (columnId : string)
  (filterValue : JsValue) : bool :=
  let search := toLowerCase (toString filterValue) in
  if String.eqb search EmptyString then true
  else
    let rowValues :=
      map (fun value =>
             if negb (isNullish value) then toLowerCase (toString value)
             else EmptyString)
          cellValues in
    existsb (fun val => includes val search) rowValues.

Definition hasActiveFilters (st : State) : bool :=
  negb (String.eqb (globalFilter st) EmptyString)
  || negb (Nat.eqb (length (columnFilters st)) 0).

(** [selectedRows]: the data elements of the selected row model. *)
Definition selectedRows (enableRowSelection : bool)
  (table : TableInstance.Table) : list JsObject :=
  if negb enableRowSelection then []
  else map TableInstance.original (TableInstance.getSelectedRowModel table).

Definition filteredRowCount (table : TableInstance.Table) : nat :=
  length (TableInstance.getFilteredRowModel table).

Definition clearSelection (st : State) : State :=
  setRowSelection ∅ st.

Definition clearAllFilters (st : State) : State :=
  setPagination
    (fun prev => {| pageIndex := 0; pageSize := pageSize prev |})
    (setColumnFilters [] (setGlobalFilter EmptyString st)).

End UseDataTable.

(** ** The sort engine *)

Module SortEngine.

Section Sort.
Context {T : Type}.

(** The comparator of a column, by column id, with results in {-1, 0, 1}
    (the sign of the result is what matters). *)
Variable compare : string -> T -> T -> Z.

(** The direction flips the sign of the column comparator's result. *)
Definition directed (k : UseDataTable.ColumnSort) (a b : T) : Z :=
  let r := compare (UseDataTable.id k) a b in
  if UseDataTable.desc k then - r else r.

(** Rows are compared key by key in priority order; the first non-zero
    result decides. *)
Fixpoint compareRows (spec : list UseDataTable.ColumnSort) (a b : T) : Z :=
  match spec with
  | [] => 0
  | k :: rest =>
      let r := directed k a b in
      if r =? 0 then compareRows rest a b else r
  end.

(** [x] is placed after the rows it is strictly greater than, and before
    the first row it does not exceed. *)
Fixpoint insertRow (spec : list UseDataTable.ColumnSort) (x : T)
  (sorted : list T) : list T :=
  match sorted with
  | [] => [x]
  | y :: rest =>
      if 0 <? compareRows spec x y then y :: insertRow spec x rest
      else x :: sorted
  end.

(** Modelled from the spec: the sorting itself is done by
    [getSortedRowModel] of the table library, which the hook only passes to
    [useReactTable]; its code is not part of the sources.  The specification
    describes it as a stable multi-key sort ("rows are compared key-by-key
    through SortSpec in priority order; the first non-zero comparator result
    decides; if all keys tie, original relative order is preserved"), here
    an insertion sort that inserts the rows from the last to the first. *)
Definition sort (spec : list UseDataTable.ColumnSort) (rows : list T)
  : list T :=
  fold_right (insertRow spec) [] rows.

(** [getSortedRowModel: enableSorting ? getSortedRowModel() : undefined]:
    without a sorted row model the rows keep their order. *)
Definition sortedRows (enableSorting : bool)
  (spec : list UseDataTable.ColumnSort) (rows : list T) : list T :=
  if enableSorting then sort spec rows else rows.

(** [a] and [b] tie on every active sort key. *)
Definition tied (spec : list UseDataTable.ColumnSort) (a b : T) : bool :=
  forallb (fun k => compare (UseDataTable.id k) a b =? 0) spec.

End Sort.

End SortEngine.

(** ** DataTable: the CSV export handler *)

Module DataTable.

(** The column definitions the component receives: an optional id, a
    header that is a string or a render function ([None]), and an accessor
    key or an accessor function, or neither. *)
Record ColumnDef := {
  id : option string;
  header : option string;
  accessorKey : option string;
  accessorFn : option (JsObject -> JsValue)
}.

(** [String(col.id ?? '')] *)
Definition idText (col : ColumnDef) : string :=
  match id col with
  | Some i => i
  | None => EmptyString
  end.

(** [col.id !== '_select'] *)
Definition notSelectColumn (col : ColumnDef) : bool :=
  match id col with
  | Some i => negb (String.eqb i "_select")
  | None => true
  end.

Definition exportAccessor (col : ColumnDef) : CsvExport.Accessor :=
  match accessorKey col, accessorFn col with
  | Some key, fn =>
      if negb (String.eqb key EmptyString) then CsvExport.AccessorKey key
      else
        match fn with
        | Some f => CsvExport.AccessorFn f
        | None => CsvExport.AccessorFn (fun row => getProp row key)
        end
  | None, Some f => CsvExport.AccessorFn f
  | None, None => CsvExport.AccessorFn (fun row => getProp row (idText col))
  end.

Definition exportColumns (columns : list ColumnDef)
  : list CsvExport.Column :=
  map (fun col =>
         {| CsvExport.id := idText col;
            CsvExport.header :=
              match header col with
              | Some h => h
              | None => idText col
              end;
            CsvExport.accessor := exportAccessor col |})
      (List.filter notSelectColumn columns).

(** [selectedRows.length > 0 ? selectedRows
     : table.getFilteredRowModel().rows.map((r) => r.original)] *)
Definition exportData (enableRowSelection : bool)
  (table : TableInstance.Table) : list JsObject :=
  let selectedRows := UseDataTable.selectedRows enableRowSelection table in
  if negb (Nat.eqb (length selectedRows) 0) then selectedRows
  else map TableInstance.original (TableInstance.getFilteredRowModel table).

(** The text [handleCSVExport] hands to the download. *)
Definition handleCSVExport (columns : list ColumnDef)
  (enableRowSelection : bool) (table : TableInstance.Table) : string :=
  CsvExport.generateCSV (exportColumns columns)
                        (exportData enableRowSelection table).

End DataTable.

(** *** The row models of the table instance

    Modelled from the spec: the row models are computed by [useReactTable]
    and the row-model functions of the table library, which the hook only
    calls; their code is not part of the sources.  The specification gives
    the view as the pipeline FilterEngine, then SortEngine: the core row
    model has one row per data element, in data order; the filtered row
    model keeps the core rows that pass the filters; the sorted row model is
    the filtered one put in the order of the sort spec.  The selection is a
    set of row identities that survives filtering, and the selected rows are
    the rows of the dataset whose identity it holds.  [passes] stands for
    the outcome of the filters on a data element. *)

Definition isSelected (selection : gmap string bool)
  (row : TableInstance.Row) : bool :=
  match selection !! TableInstance.id row with
  | Some true => true
  | _ => false
  end.

Definition tableOf (getRowId : JsObject -> string)
  (compare : string -> JsObject -> JsObject -> Z)
  (passes : JsObject -> bool) (enableSorting : bool)
  (st : UseDataTable.State) (data : list JsObject) : TableInstance.Table :=
  let core :=
    map (fun d => {| TableInstance.id := getRowId d;
                     TableInstance.original := d |}) data in
  let filtered :=
    List.filter (fun row => passes (TableInstance.original row)) core in
  let byOriginal c a b :=
    compare c (TableInstance.original a) (TableInstance.original b) in
  {| TableInstance.getCoreRowModel := core;
     TableInstance.getFilteredRowModel := filtered;
     TableInstance.getSortedRowModel :=
       SortEngine.sortedRows byOriginal enableSorting
         (UseDataTable.sorting st) filtered;
     TableInstance.getSelectedRowModel :=
       List.filter (isSelected (UseDataTable.rowSelection st)) core |}.

(** What the export should contain according to the specification: if a
    row is selected, the selected rows of the current view (filtered, in
    sorted order); otherwise all rows of the current view. *)
Definition claimedExport (st : UseDataTable.State)
  (table : TableInstance.Table) : list JsObject :=
  let view := TableInstance.getSortedRowModel table in
  if negb (Nat.eqb (length (TableInstance.getSelectedRowModel table)) 0)
  then map TableInstance.original
           (List.filter (isSelected (UseDataTable.rowSelection st)) view)
  else map TableInstance.original view.

(** ** DataTable: the body under virtual scrolling *)

Module DataTableBody.

(** The options the component passes to [useVirtualScroll]; [rowCount] is
    [allRows.length]. *)
Definition virtualOptions (enableVirtualScrolling compact : bool)
  (rowCount : nat) (virtualScrollHeight : Z)
  : VirtualScroll.VirtualScrollOptions :=
  {| VirtualScroll.count :=
       if enableVirtualScrolling then Z.of_nat rowCount else 0;
     VirtualScroll.estimateSize := if compact then 36 else 44;
     VirtualScroll.overscan := Some 10;
     VirtualScroll.containerHeight := virtualScrollHeight;
     VirtualScroll.enabled := enableVirtualScrolling |}.

(** [virtualRows[0]?.start ?? 0]: the height of the spacer row above. *)
Definition topSpacer (virtualRows : list VirtualScroll.VirtualItem) : Z :=
  match virtualRows with
  | it :: _ => VirtualScroll.start it
  | [] => 0
  end.

(** [virtualRows[virtualRows.length - 1]?.end ?? 0] *)
Fixpoint lastEnd (virtualRows : list VirtualScroll.VirtualItem) : Z :=
  match virtualRows with
  | [] => 0
  | [it] => VirtualScroll.end_ it
  | _ :: rest => lastEnd rest
  end.

(** [Math.max(0, totalHeight - lastEnd)]: the height of the spacer row
    below. *)
Definition bottomSpacer (totalHeight : Z)
  (virtualRows : list VirtualScroll.VirtualItem) : Z :=
  Z.max 0 (totalHeight - lastEnd virtualRows).

(** [allRows[virtualRow.index]], [undefined] outside the array. *)
Definition rowAt {A : Type} (allRows : list A) (i : Z) : option A :=
  if i <? 0 then None else nth_error allRows (Z.to_nat i).

(** The data rows the body renders: one per virtual row whose index holds
    a row ([if (!row) return null]). *)
Fixpoint renderedRows {A : Type} (allRows : list A)
  (virtualRows : list VirtualScroll.VirtualItem) : list A :=
  match virtualRows with
  | [] => []
  | it :: rest =>
      match rowAt allRows (VirtualScroll.index it) with
      | Some row => row :: renderedRows allRows rest
      | None => renderedRows allRows rest
      end
  end.

(** The height of the table body: the two spacers (rendered when
    [totalHeight > 0]) and the data rows, each [rowHeight] high. *)
Definition bodyHeight {A : Type} (allRows : list A) (totalHeight rowHeight : Z)
  (virtualRows : list VirtualScroll.VirtualItem) : Z :=
  (if 0 <? totalHeight then topSpacer virtualRows else 0)
  + rowHeight * Z.of_nat (length (renderedRows allRows virtualRows))
  + (if 0 <? totalHeight then bottomSpacer totalHeight virtualRows else 0).

End DataTableBody.

(** ** DataTable: batch actions *)

Module BatchAction.

(** [handleBatchAction]: the call of [onBatchAction] it makes, if any;
    [onBatchAction] tells whether the component was given a handler. *)
Definition handleBatchAction (onBatchAction : bool)
  (selectedRows : list JsObject) (actionId : string)
  : option (string * list JsObject) :=
  if onBatchAction && negb (Nat.eqb (length selectedRows) 0)
  then Some (actionId, selectedRows)
  else None.

End BatchAction.

(** ** DataTable: the pagination bar *)

Module Pagination.

(** An entry of the page list: a page number or the ellipsis mark. *)
Inductive PageEntry :=
| PageNumber (n : Z)
| Ellipsis.

(** [pageIndex * pageSize + 1] *)
Definition startRow (pageIndex pageSize : Z) : Z :=
  pageIndex * pageSize + 1.

(** [Math.min((pageIndex + 1) * pageSize, filteredRowCount)] *)
Definition endRow (pageIndex pageSize filteredRowCount : Z) : Z :=
  Z.min ((pageIndex + 1) * pageSize) filteredRowCount.

(** [getPageNumbers]; [pageCount] is [table.getPageCount()]. *)
Definition getPageNumbers (pageCount pageIndex : Z) : list PageEntry :=
  if pageCount <=? 7 then map PageNumber (Zupto (Z.to_nat pageCount) 0)
  else
    [PageNumber 0]
    ++ (if 2 <? pageIndex then [Ellipsis] else [])
    ++ map PageNumber
         (Zrange (Z.max 1 (pageIndex - 1))
                 (Z.min (pageCount - 2) (pageIndex + 1)))
    ++ (if pageIndex <? pageCount - 3 then [Ellipsis] else [])
    ++ [PageNumber (pageCount - 1)].

End Pagination.

(** The page numbers of a page list, without the ellipsis marks. *)
Fixpoint pageNumbersOf (l : list Pagination.PageEntry) : list Z :=
  match l with
  | [] => []
  | Pagination.PageNumber n :: rest => n :: pageNumbersOf rest
  | Pagination.Ellipsis :: rest => pageNumbersOf rest
  end.

(** The entries after page [prev] continue without a hidden gap: a page
    number that follows a page number is its successor, and an ellipsis
    mark stands between two page numbers that are at least two apart. *)
Fixpoint gapsMarked (prev : Z) (afterEllipsis : bool)
  (l : list Pagination.PageEntry) : Prop :=
  match l with
  | [] => afterEllipsis = false
  | Pagination.PageNumber n :: rest =>
      (if afterEllipsis then prev + 1 < n else n = prev + 1)
      /\ gapsMarked n false rest
  | Pagination.Ellipsis :: rest =>
      afterEllipsis = false /\ gapsMarked prev true rest
  end.

(** ** csvExport: the name of the downloaded file *)

Module CsvDownload.

(** [.replace(/[T:]/g, '-')] *)
Fixpoint replaceTColon (s : string) : string :=
  match s with
  | EmptyString => EmptyString
  | String c s' =>
      String (if Ascii.eqb c "T"%char || Ascii.eqb c ":"%char
              then "-"%char else c)
             (replaceTColon s')
  end.

(** The timestamp part of the file name; [iso] is what
    [new Date().toISOString()] returns. *)
Definition timestamp (includeTimestamp : bool) (iso : string) : string :=
  if includeTimestamp
  then String "_"%char (replaceTColon (String.substring 0 19 iso))
  else EmptyString.

(** [fullFilename] of [downloadCSV], with the defaults [filename = 'export']
    and [includeTimestamp = true]. *)
Definition fullFilename (filename : option string)
  (includeTimestamp : option bool) (iso : string) : string :=
  let filename := match filename with Some f => f | None => "export" end in
  let includeTimestamp :=
    match includeTimestamp with Some b => b | None => true end in
  filename +:+ timestamp includeTimestamp iso +:+ ".csv".

End CsvDownload.

(** ** Auxiliary notions for the further properties *)

(** [escapeCSV] as a function of the text of the cell. *)
Definition escapeText (str : string) : string :=
  if includes str (str1 comma) || includes str (str1 dquote)
     || includes str (str1 LF) || includes str (str1 CR)
  then String dquote (replaceQuotes str +:+ str1 dquote)
  else str.

(** The value with its letters in lower case. *)
Definition lowerValue (v : JsValue) : JsValue :=
  match v with
  | JsString s => JsString (toLowerCase s)
  | _ => v
  end.

(** The header label the export gives a column definition. *)
Definition exportHeader (col : DataTable.ColumnDef) : string :=
  match DataTable.header col with
  | Some h => h
  | None => DataTable.idText col
  end.

(** ** Example inputs *)

(** The example of the specification: 1000 rows of 40px, a 600px viewport,
    overscan 5. *)
Definition exampleOptions : VirtualScroll.VirtualScrollOptions :=
  {| VirtualScroll.count := 1000;
     VirtualScroll.estimateSize := 40;
     VirtualScroll.overscan := Some 5;
     VirtualScroll.containerHeight := 600;
     VirtualScroll.enabled := true |}.

(** No rows at all. *)
Definition emptyOptions : VirtualScroll.VirtualScrollOptions :=
  {| VirtualScroll.count := 0;
     VirtualScroll.estimateSize := 44;
     VirtualScroll.overscan := None;
     VirtualScroll.containerHeight := 500;
     VirtualScroll.enabled := true |}.

(** Ten rows of 44px in a 500px viewport, overscan 10. *)
Definition staleScrollOptions : VirtualScroll.VirtualScrollOptions :=
  {| VirtualScroll.count := 10;
     VirtualScroll.estimateSize := 44;
     VirtualScroll.overscan := Some 10;
     VirtualScroll.containerHeight := 500;
     VirtualScroll.enabled := true |}.

(** a,b between quotes. *)
Definition quotedAB : string := str1 dquote +:+ "a,b" +:+ str1 dquote.

(** The value of the specification's example: a,b in quotes, a line break,
    then c. *)
Definition trickyValue : string := quotedAB +:+ str1 LF +:+ "c".

Definition nameColumn : CsvExport.Column :=
  {| CsvExport.id := "name";
     CsvExport.header := "Name, quoted";
     CsvExport.accessor := CsvExport.AccessorKey "name" |}.

Definition noteColumn : CsvExport.Column :=
  {| CsvExport.id := "note";
     CsvExport.header := "Note";
     CsvExport.accessor :=
       CsvExport.AccessorFn (fun row => getProp row "note") |}.

Definition trickyRow : JsObject :=
  <["name" := JsString trickyValue]> (<["note" := JsString "plain"]> ∅).

Definition blankColumn : CsvExport.Column :=
  {| CsvExport.id := "x";
     CsvExport.header := EmptyString;
     CsvExport.accessor := CsvExport.AccessorKey "x" |}.

Definition blankRow : JsObject := <["x" := JsString EmptyString]> ∅.

Definition numberOf (v : JsValue) : Z :=
  match v with
  | JsNumber n => n
  | _ => 0
  end.

(** A numeric column comparator: the sign of the difference. *)
Definition compareProp (column : string) (a b : JsObject) : Z :=
  Z.sgn (numberOf (getProp a column) - numberOf (getProp b column)).

Definition mkRow (name : string) (v : Z) : JsObject :=
  <["id" := JsString name]> (<["v" := JsNumber v]> ∅).

Definition byV : list UseDataTable.ColumnSort :=
  [ {| UseDataTable.id := "v"; UseDataTable.desc := false |} ].

Definition rowA : JsObject := mkRow "a" 3.
Definition rowB : JsObject := mkRow "b" 1.
Definition rowC : JsObject := mkRow "c" 2.

Definition rowName (d : JsObject) : string := toString (getProp d "id").

(** The filters of the example tables: the global filter only. *)
Definition passesGlobal (st : UseDataTable.State) (d : JsObject) : bool :=
  UseDataTable.globalFilterFn [getProp d "id"; getProp d "v"] "id"
    (JsString (UseDataTable.globalFilter st)).

Definition exampleTable (st : UseDataTable.State) : TableInstance.Table :=
  tableOf rowName compareProp (passesGlobal st) true st [rowA; rowB; rowC].

(** Sorted by v, nothing selected, no filter. *)
Definition sortedState : UseDataTable.State :=
  {| UseDataTable.sorting := byV;
     UseDataTable.columnFilters := [];
     UseDataTable.globalFilter := EmptyString;
     UseDataTable.rowSelection := ∅;
     UseDataTable.pagination :=
       {| UseDataTable.pageIndex := 0; UseDataTable.pageSize := 10 |} |}.

(** Sorted by v, rows a and c selected. *)
Definition selectedState : UseDataTable.State :=
  UseDataTable.setRowSelection (<["a" := true]> (<["c" := true]> ∅))
    sortedState.

(** Row a selected, then hidden by the global filter 1. *)
Definition hiddenState : UseDataTable.State :=
  UseDataTable.setGlobalFilter "1"
    (UseDataTable.setRowSelection (<["a" := true]> ∅) sortedState).

(** * Proofs *)

(** Closes a closed arithmetic side condition by evaluation. *)
Ltac by_eval :=
  solve [ vm_compute; repeat split; try discriminate; try reflexivity ].

(** ** Floor and ceiling *)

Lemma floorDiv_spec (a b : Z) :
  0 < b -> floorDiv a b * b <= a < (floorDiv a b + 1) * b.
Proof.
  intros Hb. unfold floorDiv.
  pose proof (Z.mul_div_le a b Hb).
  pose proof (Z.mul_succ_div_gt a b Hb). lia.
Qed.

Lemma ceilDiv_spec (a b : Z) :
  0 < b -> (ceilDiv a b - 1) * b < a <= ceilDiv a b * b.
Proof.
  intros Hb. unfold ceilDiv.
  pose proof (Z.mul_div_le (- a) b Hb).
  pose proof (Z.mul_succ_div_gt (- a) b Hb). lia.
Qed.

Lemma floorDiv_lower (a b i : Z) :
  0 < b -> a < (i + 1) * b -> floorDiv a b <= i.
Proof.
  intros Hb H. destruct (floorDiv_spec a b Hb) as [Hlo _]. nia.
Qed.

Lemma floor_plus_ceil_upper (s v r i : Z) :
  0 < r -> i * r <= s + v -> i <= floorDiv s r + ceilDiv v r.
Proof.
  intros Hr H.
  destruct (floorDiv_spec s r Hr) as [_ Hs].
  destruct (ceilDiv_spec v r Hr) as [_ Hv]. nia.
Qed.

Lemma ceilDiv_nonneg (a b : Z) : 0 < b -> 0 <= a -> 0 <= ceilDiv a b.
Proof.
  intros Hb Ha. destruct (ceilDiv_spec a b Hb) as [_ H]. nia.
Qed.

Lemma floorDiv_nonneg (a b : Z) : 0 < b -> 0 <= a -> 0 <= floorDiv a b.
Proof. intros Hb Ha. unfold floorDiv. apply Z.div_pos; lia. Qed.

(** ** Integer ranges *)

Lemma Zupto_In (n : nat) (a i : Z) :
  In i (Zupto n a) <-> a <= i < a + Z.of_nat n.
Proof.
  revert a. induction n as [|n IH]; intros a; simpl.
  - lia.
  - rewrite IH. lia.
Qed.

Lemma Zrange_In (a b i : Z) : In i (Zrange a b) <-> a <= i <= b.
Proof. unfold Zrange. rewrite Zupto_In. lia. Qed.

(** ** The virtual window *)

Section VirtualWindow.
Import VirtualScroll.

Lemma pushItems_index (est : Z) (n : nat) (i : Z) :
  map index (pushItems est n i) = Zupto n i.
Proof.
  revert i. induction n as [|n IH]; intros i; simpl; [reflexivity|].
  now rewrite IH.
Qed.

Lemma pushItems_shape (est : Z) (n : nat) (i : Z) (it : VirtualItem) :
  In it (pushItems est n i) -> it = mkItem est (index it).
Proof.
  revert i. induction n as [|n IH]; intros i; simpl; [tauto|].
  intros [<- | H]; [reflexivity | eauto].
Qed.

Lemma virtualRows_active (o : VirtualScrollOptions) (scrollTop : Z) :
  enabled o = true -> count o <> 0 ->
  virtualRows o scrollTop =
  pushItems (estimateSize o)
    (Z.to_nat (endIndex o scrollTop + 1 - startIndex o scrollTop))
    (startIndex o scrollTop).
Proof.
  intros He Hc. unfold virtualRows. rewrite He.
  destruct (Z.eqb_spec (count o) 0) as [E|_]; [contradiction | reflexivity].
Qed.

Lemma virtualRows_indices (o : VirtualScrollOptions) (scrollTop : Z) :
  enabled o = true -> count o <> 0 ->
  map index (virtualRows o scrollTop) =
  Zrange (startIndex o scrollTop) (endIndex o scrollTop).
Proof.
  intros He Hc. rewrite virtualRows_active by assumption.
  apply pushItems_index.
Qed.

Lemma virtualRows_subrange (o : VirtualScrollOptions) (scrollTop : Z)
  (it : VirtualItem) :
  In it (virtualRows o scrollTop) ->
  startIndex o scrollTop <= index it <= endIndex o scrollTop /\
  it = mkItem (estimateSize o) (index it).
Proof.
  unfold virtualRows.
  destruct (negb (enabled o) || (count o =? 0)); simpl; [tauto|].
  intros H. split.
  - apply Zrange_In. unfold Zrange. rewrite <- pushItems_index with (est := estimateSize o).
    now apply in_map.
  - eapply pushItems_shape; eassumption.
Qed.

Lemma startIndex_nonneg (o : VirtualScrollOptions) (scrollTop : Z) :
  0 <= startIndex o scrollTop.
Proof. unfold startIndex. lia. Qed.

Lemma endIndex_le_last (o : VirtualScrollOptions) (scrollTop : Z) :
  endIndex o scrollTop <= count o - 1.
Proof. unfold endIndex. lia. Qed.

(** Every row that shows a pixel of the viewport is inside the window. *)
Lemma window_covers_visible_row (o : VirtualScrollOptions) (scrollTop i : Z) :
  0 < estimateSize o -> 0 <= overscanOf o ->
  0 <= i < count o ->
  rowIntersectsViewport (estimateSize o) (containerHeight o) scrollTop i ->
  startIndex o scrollTop <= i <= endIndex o scrollTop.
Proof.
  intros Hr Hov Hi (x & [Hx1 Hx2] & [Hx3 Hx4]).
  assert (Hlo : floorDiv scrollTop (estimateSize o) <= i)
    by (apply floorDiv_lower; lia).
  assert (Hhi : i <= floorDiv scrollTop (estimateSize o)
                     + ceilDiv (containerHeight o) (estimateSize o))
    by (apply floor_plus_ceil_upper; lia).
  unfold endIndex, startIndex, visibleCount. lia.
Qed.

End VirtualWindow.

(** C1, as stated, fails at the top of the list: with 1000 rows of 40px, a
    600px viewport, overscan 5 and scroll offset 0 the code's window ends at
    row 25, the formula's at row 20. *)
Lemma C1_window_formula_counterexample :
  VirtualScroll.computeWindow exampleOptions 0 = (0, 25) /\
  specWindow 1000 40 600 0 5 = (0, 20) /\
  VirtualScroll.computeWindow exampleOptions 0 <> specWindow 1000 40 600 0 5.
Proof. repeat split. intros H. discriminate H. Qed.

(** C1 (amended): for totalCount > 0, rowExtent > 0, viewportExtent >= 0,
    scrollOffset >= 0 and overscan >= 0 the window runs from
    [startIndex = max(0, floor(scrollOffset/rowExtent) - overscan)] to
    [endIndex = min(totalCount - 1, startIndex + ceil(viewportExtent/rowExtent)
    + 2*overscan)], and the rows produced are exactly the indices of that
    closed range; this is the window of the specification's formula whenever
    [floor(scrollOffset/rowExtent) >= overscan].  For totalCount=1000,
    rowExtent=40, viewportExtent=600, scrollOffset=2000, overscan=5 it is
    startIndex=45, endIndex=70. *)
Theorem C1_window_formula (o : VirtualScroll.VirtualScrollOptions)
  (scrollTop : Z) :
  VirtualScroll.enabled o = true ->
  0 < VirtualScroll.count o ->
  0 < VirtualScroll.estimateSize o ->
  0 <= VirtualScroll.containerHeight o ->
  0 <= scrollTop ->
  0 <= VirtualScroll.overscanOf o ->
  let rawStart := floorDiv scrollTop (VirtualScroll.estimateSize o) in
  let visible :=
    ceilDiv (VirtualScroll.containerHeight o) (VirtualScroll.estimateSize o) in
  let ov := VirtualScroll.overscanOf o in
  let s := Z.max 0 (rawStart - ov) in
  let e := Z.min (VirtualScroll.count o - 1) (s + visible + 2 * ov) in
  VirtualScroll.computeWindow o scrollTop = (s, e) /\
  map VirtualScroll.index (VirtualScroll.virtualRows o scrollTop) = Zrange s e /\
  (ov <= rawStart ->
   VirtualScroll.computeWindow o scrollTop =
   specWindow (VirtualScroll.count o) (VirtualScroll.estimateSize o)
              (VirtualScroll.containerHeight o) scrollTop ov) /\
  VirtualScroll.computeWindow exampleOptions 2000 = (45, 70).
Proof.
  intros He Hc Hr Hh Hs Hov rawStart visible ov s e.
  assert (Hw : VirtualScroll.computeWindow o scrollTop = (s, e)).
  { unfold VirtualScroll.computeWindow, VirtualScroll.endIndex,
      VirtualScroll.startIndex, VirtualScroll.visibleCount.
    subst s e rawStart visible ov. f_equal. f_equal. lia. }
  split; [exact Hw|]. split.
  - rewrite virtualRows_indices by (try assumption; lia).
    unfold VirtualScroll.computeWindow in Hw. now inversion Hw.
  - split; [|reflexivity].
    intros Hge. rewrite Hw. unfold specWindow. fold rawStart visible.
    subst s e. f_equal. f_equal. lia.
Qed.

Lemma C1_window_formula_witness :
  VirtualScroll.computeWindow exampleOptions 2000 = (45, 70) /\
  map VirtualScroll.index (VirtualScroll.virtualRows exampleOptions 2000)
  = Zrange 45 70 /\
  VirtualScroll.computeWindow exampleOptions 2000 = specWindow 1000 40 600 2000 5.
Proof.
  destruct (C1_window_formula exampleOptions 2000
              ltac:(by_eval) ltac:(by_eval) ltac:(by_eval)
              ltac:(by_eval) ltac:(by_eval) ltac:(by_eval))
    as (H1 & H2 & H3 & _).
  split; [exact H1|]. split; [exact H2|].
  apply H3. by_eval.
Defined.

(** A non-negative overscan only widens the window. *)
Lemma overscan_extends (o : VirtualScroll.VirtualScrollOptions)
  (scrollTop : Z) :
  0 <= VirtualScroll.overscanOf o ->
  VirtualScroll.startIndex o scrollTop
    <= VirtualScroll.startIndex (withOverscan 0 o) scrollTop /\
  VirtualScroll.endIndex (withOverscan 0 o) scrollTop
    <= VirtualScroll.endIndex o scrollTop.
Proof.
  intros Hov.
  unfold VirtualScroll.endIndex, VirtualScroll.startIndex,
    VirtualScroll.visibleCount, VirtualScroll.overscanOf, withOverscan in *.
  simpl. lia.
Qed.

(** C2: for totalCount > 0, rowExtent > 0 and scrollOffset in
    [[0, totalCount*rowExtent - viewportExtent]], every row index [i] whose
    pixel span [[i*rowExtent, (i+1)*rowExtent)] meets the visible range
    [[scrollOffset, scrollOffset + viewportExtent]] satisfies
    [startIndex <= i <= endIndex] and is among the rows produced; the overscan
    (a number of rows, so non-negative) only widens the window: it contains
    the window computed with overscan 0. *)
Theorem C2_window_contains_visible_rows
  (o : VirtualScroll.VirtualScrollOptions) (scrollTop i : Z) :
  VirtualScroll.enabled o = true ->
  0 < VirtualScroll.count o ->
  0 < VirtualScroll.estimateSize o ->
  0 <= VirtualScroll.overscanOf o ->
  0 <= scrollTop <=
    VirtualScroll.count o * VirtualScroll.estimateSize o
    - VirtualScroll.containerHeight o ->
  0 <= i < VirtualScroll.count o ->
  rowIntersectsViewport (VirtualScroll.estimateSize o)
    (VirtualScroll.containerHeight o) scrollTop i ->
  VirtualScroll.startIndex o scrollTop <= i <= VirtualScroll.endIndex o scrollTop /\
  In i (map VirtualScroll.index (VirtualScroll.virtualRows o scrollTop)) /\
  VirtualScroll.startIndex o scrollTop
    <= VirtualScroll.startIndex (withOverscan 0 o) scrollTop /\
  VirtualScroll.endIndex (withOverscan 0 o) scrollTop
    <= VirtualScroll.endIndex o scrollTop.
Proof.
  intros He Hc Hr Hov _ Hi Hvis.
  assert (Hin : VirtualScroll.startIndex o scrollTop <= i
                <= VirtualScroll.endIndex o scrollTop)
    by (apply window_covers_visible_row; assumption).
  split; [exact Hin|]. split.
  - rewrite virtualRows_indices by (try assumption; lia).
    now apply Zrange_In.
  - apply overscan_extends; assumption.
Qed.

Lemma C2_window_contains_visible_rows_witness :
  VirtualScroll.startIndex exampleOptions 2000 <= 65
    <= VirtualScroll.endIndex exampleOptions 2000 /\
  In 65 (map VirtualScroll.index (VirtualScroll.virtualRows exampleOptions 2000)) /\
  VirtualScroll.startIndex exampleOptions 2000
    <= VirtualScroll.startIndex (withOverscan 0 exampleOptions) 2000 /\
  VirtualScroll.endIndex (withOverscan 0 exampleOptions) 2000
    <= VirtualScroll.endIndex exampleOptions 2000.
Proof.
  apply (C2_window_contains_visible_rows exampleOptions 2000 65
           ltac:(by_eval) ltac:(by_eval) ltac:(by_eval)
           ltac:(by_eval) ltac:(by_eval) ltac:(by_eval)).
  exists 2600. by_eval.
Defined.

(** C9: with a total count of 0 no virtual row is produced (and the window
    is empty: its end lies before its start); for every count, scroll
    offset, viewport extent and overscan, no produced index is negative. *)
Theorem C9_empty_and_nonnegative (o : VirtualScroll.VirtualScrollOptions)
  (scrollTop : Z) :
  (VirtualScroll.count o = 0 ->
   VirtualScroll.virtualRows o scrollTop = [] /\
   VirtualScroll.endIndex o scrollTop < VirtualScroll.startIndex o scrollTop) /\
  (forall it : VirtualScroll.VirtualItem,
     In it (VirtualScroll.virtualRows o scrollTop) ->
     0 <= VirtualScroll.index it) /\
  0 <= VirtualScroll.startIndex o scrollTop.
Proof.
  split; [|split].
  - intros Hc. split.
    + unfold VirtualScroll.virtualRows. rewrite Hc. simpl.
      now rewrite orb_true_r.
    + pose proof (startIndex_nonneg o scrollTop).
      pose proof (endIndex_le_last o scrollTop). lia.
  - intros it Hin.
    apply virtualRows_subrange in Hin as [[Hlo _] _].
    pose proof (startIndex_nonneg o scrollTop). lia.
  - apply startIndex_nonneg.
Qed.

Lemma C9_empty_and_nonnegative_witness :
  VirtualScroll.virtualRows emptyOptions 120 = [] /\
  VirtualScroll.endIndex emptyOptions 120
    < VirtualScroll.startIndex emptyOptions 120 /\
  0 <= VirtualScroll.index (VirtualScroll.mkItem 40 45).
Proof.
  destruct (C9_empty_and_nonnegative emptyOptions 120) as (H0 & _ & _).
  destruct (H0 eq_refl) as [Hnil Hlt].
  destruct (C9_empty_and_nonnegative exampleOptions 2000) as (_ & Hpos & _).
  split; [exact Hnil|]. split; [exact Hlt|].
  apply Hpos. vm_compute. left. reflexivity.
Defined.

(** C10, as stated, fails when the scroll offset lies beyond the rows: ten
    rows of 44px with the scroll offset still at 44000 (the list has just been
    filtered down) give a window starting at row 990, and no row at all. *)
Lemma C10_nonempty_counterexample :
  VirtualScroll.enabled staleScrollOptions = true /\
  0 < VirtualScroll.count staleScrollOptions /\
  VirtualScroll.startIndex staleScrollOptions 44000 = 990 /\
  VirtualScroll.endIndex staleScrollOptions 44000 = 9 /\
  VirtualScroll.virtualRows staleScrollOptions 44000 = [] /\
  ~ VirtualScroll.virtualRows staleScrollOptions 44000 <> [].
Proof. repeat split. intros H. now apply H. Qed.

(** C10 (amended): whenever virtual scrolling is enabled and count > 0, the
    virtual rows are the consecutive ascending indices from startIndex to
    endIndex, all within [[0, count-1]], each item has
    [start = index*estimateSize], [end = (index+1)*estimateSize] and
    [size = estimateSize], and [totalHeight = count*estimateSize]; the list is
    non-empty when moreover estimateSize > 0, overscan >= 0,
    containerHeight >= 0 and [0 <= scrollTop < count*estimateSize]. *)
Theorem C10_rows_contiguous_in_bounds
  (o : VirtualScroll.VirtualScrollOptions) (scrollTop : Z) :
  VirtualScroll.enabled o = true ->
  0 < VirtualScroll.count o ->
  map VirtualScroll.index (VirtualScroll.virtualRows o scrollTop) =
    Zrange (VirtualScroll.startIndex o scrollTop)
           (VirtualScroll.endIndex o scrollTop) /\
  (forall it, In it (VirtualScroll.virtualRows o scrollTop) ->
     0 <= VirtualScroll.index it <= VirtualScroll.count o - 1 /\
     VirtualScroll.start it
       = VirtualScroll.index it * VirtualScroll.estimateSize o /\
     VirtualScroll.end_ it
       = (VirtualScroll.index it + 1) * VirtualScroll.estimateSize o /\
     VirtualScroll.size it = VirtualScroll.estimateSize o) /\
  VirtualScroll.totalHeight o
    = VirtualScroll.count o * VirtualScroll.estimateSize o /\
  (0 < VirtualScroll.estimateSize o ->
   0 <= VirtualScroll.overscanOf o ->
   0 <= VirtualScroll.containerHeight o ->
   0 <= scrollTop < VirtualScroll.count o * VirtualScroll.estimateSize o ->
   VirtualScroll.virtualRows o scrollTop <> []).
Proof.
  intros He Hc. split; [|split; [|split]].
  - apply virtualRows_indices; [assumption | lia].
  - intros it Hin.
    apply virtualRows_subrange in Hin as [[Hlo Hhi] Hshape].
    pose proof (startIndex_nonneg o scrollTop).
    pose proof (endIndex_le_last o scrollTop).
    split; [lia|]. rewrite Hshape. simpl. auto.
  - reflexivity.
  - intros Hr Hov Hh [Hs0 Hs1] Hnil.
    assert (Hidx : In (VirtualScroll.startIndex o scrollTop)
                      (map VirtualScroll.index
                           (VirtualScroll.virtualRows o scrollTop))).
    { rewrite virtualRows_indices by (try assumption; lia).
      apply Zrange_In.
      pose proof (floorDiv_nonneg scrollTop _ Hr Hs0) as Hf0.
      assert (Hf1 : floorDiv scrollTop (VirtualScroll.estimateSize o)
                    <= VirtualScroll.count o - 1)
        by (apply floorDiv_lower; lia).
      pose proof (ceilDiv_nonneg _ _ Hr Hh) as Hv.
      unfold VirtualScroll.endIndex, VirtualScroll.startIndex,
        VirtualScroll.visibleCount. lia. }
    rewrite Hnil in Hidx. exact Hidx.
Qed.

Lemma C10_rows_contiguous_in_bounds_witness :
  map VirtualScroll.index (VirtualScroll.virtualRows exampleOptions 2000)
    = Zrange 45 70 /\
  VirtualScroll.virtualRows exampleOptions 2000 <> [].
Proof.
  destruct (C10_rows_contiguous_in_bounds exampleOptions 2000
              ltac:(by_eval) ltac:(by_eval))
    as (H1 & _ & _ & H4).
  split; [exact H1|].
  apply H4; by_eval.
Defined.

(** ** Strings *)

Lemma append_nil_l (a : string) : EmptyString +:+ a = a.
Proof. reflexivity. Qed.

Lemma append_cons (x : ascii) (a b : string) :
  String x a +:+ b = String x (a +:+ b).
Proof. reflexivity. Qed.

Lemma append_assoc (a b c : string) : (a +:+ b) +:+ c = a +:+ (b +:+ c).
Proof.
  induction a as [|x a IH]; [reflexivity|].
  now rewrite !append_cons, IH.
Qed.

Lemma append_nil_r (a : string) : a +:+ EmptyString = a.
Proof.
  induction a as [|x a IH]; [reflexivity|].
  now rewrite append_cons, IH.
Qed.

Lemma prefix_nil (s : string) : String.prefix EmptyString s = true.
Proof. destruct s; reflexivity. Qed.

Lemma includes_str1_cons (c d : ascii) (s : string) :
  includes (String c s) (str1 d) = Ascii.eqb c d || includes s (str1 d).
Proof.
  simpl. rewrite prefix_nil.
  destruct (Ascii.ascii_dec d c) as [->|Hne].
  - now rewrite Ascii.eqb_refl.
  - destruct (Ascii.eqb_spec c d) as [->|_]; [contradiction | reflexivity].
Qed.

(** ** Reading back what [generateCSV] wrote *)

Lemma pushStr_nil (t : Partial) : pushStr EmptyString t = t.
Proof. now destruct t as [[f fs] rs]. Qed.

Lemma pushStr_cons (c : ascii) (s : string) (t : Partial) :
  pushStr (String c s) t = pushChar c (pushStr s t).
Proof. now destruct t as [[f fs] rs]. Qed.

Lemma parseFrom_plain (c : ascii) (s : string) :
  Ascii.eqb c comma = false -> Ascii.eqb c CR = false ->
  Ascii.eqb c dquote = false ->
  parseFrom false (String c s) = pushChar c (parseFrom false s).
Proof. intros H1 H2 H3. simpl. now rewrite H1, H2, H3. Qed.

Lemma parseFrom_comma (s : string) :
  parseFrom false (String comma s) = newField (parseFrom false s).
Proof. reflexivity. Qed.

Lemma parseFrom_crlf (s : string) :
  parseFrom false (CRLF +:+ s) = newRow (parseFrom false s).
Proof. reflexivity. Qed.

Lemma parseFrom_open (s : string) :
  parseFrom false (String dquote s) = parseFrom true s.
Proof. reflexivity. Qed.

Lemma parseFrom_quoted_plain (c : ascii) (s : string) :
  Ascii.eqb c dquote = false ->
  parseFrom true (String c s) = pushChar c (parseFrom true s).
Proof. intros H. simpl. now rewrite H. Qed.

Lemma parseFrom_quoted_double (s : string) :
  parseFrom true (String dquote (String dquote s))
  = pushChar dquote (parseFrom true s).
Proof. reflexivity. Qed.

Lemma parseFrom_quoted_close (s : string) :
  startsWithQuote s = false ->
  parseFrom true (String dquote s) = parseFrom false s.
Proof.
  intros H. destruct s as [|c s]; [reflexivity|].
  simpl in H. change (parseFrom true (String dquote (String c s)))
    with (if Ascii.eqb c dquote then pushChar dquote (parseFrom true s)
          else parseFrom false (String c s)).
  now rewrite H.
Qed.

(** An unquoted field is read back character by character. *)
Lemma parseFrom_unquoted_field (str rest : string) :
  includes str (str1 comma) = false ->
  includes str (str1 dquote) = false ->
  includes str (str1 CR) = false ->
  parseFrom false (str +:+ rest) = pushStr str (parseFrom false rest).
Proof.
  induction str as [|c str IH]; intros Hc Hq Hr.
  - now rewrite append_nil_l, pushStr_nil.
  - rewrite includes_str1_cons in Hc, Hq, Hr.
    apply orb_false_elim in Hc as [Hc1 Hc2].
    apply orb_false_elim in Hq as [Hq1 Hq2].
    apply orb_false_elim in Hr as [Hr1 Hr2].
    rewrite append_cons.
    rewrite parseFrom_plain by assumption.
    rewrite IH by assumption. now rewrite pushStr_cons.
Qed.

(** Inside quotes the doubled quotes are undone, up to the closing quote. *)
Lemma parseFrom_quoted_field (str rest : string) :
  startsWithQuote rest = false ->
  parseFrom true (replaceQuotes str +:+ String dquote rest)
  = pushStr str (parseFrom false rest).
Proof.
  intros Hrest. induction str as [|c str IH].
  - simpl replaceQuotes. rewrite append_nil_l.
    rewrite parseFrom_quoted_close by assumption.
    now rewrite pushStr_nil.
  - simpl replaceQuotes. destruct (Ascii.eqb_spec c dquote) as [->|Hne].
    + rewrite !append_cons.
      rewrite parseFrom_quoted_double, IH. now rewrite pushStr_cons.
    + rewrite append_cons.
      rewrite parseFrom_quoted_plain
        by (now destruct (Ascii.eqb_spec c dquote)).
      rewrite IH. now rewrite pushStr_cons.
Qed.

(** One escaped cell followed by text that does not begin with a quote. *)
Lemma parseFrom_escapeCSV (v : JsValue) (rest : string) :
  startsWithQuote rest = false ->
  parseFrom false (CsvExport.escapeCSV v +:+ rest)
  = pushStr (cellText v) (parseFrom false rest).
Proof.
  intros Hrest. unfold CsvExport.escapeCSV, cellText.
  destruct (isNullish v).
  - now rewrite append_nil_l, pushStr_nil.
  - cbv zeta.
    destruct (includes (toString v) (str1 comma)) eqn:Hc; simpl orb; cbv iota.
    2: destruct (includes (toString v) (str1 dquote)) eqn:Hq; simpl orb; cbv iota.
    3: destruct (includes (toString v) (str1 LF)) eqn:Hl; simpl orb; cbv iota.
    4: destruct (includes (toString v) (str1 CR)) eqn:Hr; simpl orb; cbv iota.
    5: now apply parseFrom_unquoted_field.
    all: rewrite append_cons, parseFrom_open, append_assoc;
         change (str1 dquote +:+ rest) with (String dquote rest);
         now apply parseFrom_quoted_field.
Qed.

Lemma join_single (sep x : string) : join sep [x] = x.
Proof. reflexivity. Qed.

Lemma join_cons (sep x y : string) (l : list string) :
  join sep (x :: y :: l) = x +:+ sep +:+ join sep (y :: l).
Proof. reflexivity. Qed.

(** A whole line, followed by the end of the text or by a row separator. *)
Lemma parseFrom_line (vs : list JsValue) (rest : string)
  (rs : list (list string)) :
  vs <> [] ->
  startsWithQuote rest = false ->
  parseFrom false rest = (EmptyString, [], rs) ->
  parseFrom false (lineOf vs +:+ rest) = toPartial (map cellText vs) rs.
Proof.
  intros Hne Hq Hrest. unfold lineOf.
  induction vs as [|v vs IH]; [contradiction|].
  destruct vs as [|v' vs].
  - simpl map. rewrite join_single.
    rewrite parseFrom_escapeCSV by assumption.
    rewrite Hrest. simpl. now rewrite append_nil_r.
  - change (map CsvExport.escapeCSV (v :: v' :: vs))
      with (CsvExport.escapeCSV v :: CsvExport.escapeCSV v'
              :: map CsvExport.escapeCSV vs).
    rewrite join_cons, !append_assoc.
    rewrite parseFrom_escapeCSV by reflexivity.
    change (str1 comma +:+ ?x) with (String comma x).
    rewrite parseFrom_comma.
    change (CsvExport.escapeCSV v' :: map CsvExport.escapeCSV vs)
      with (map CsvExport.escapeCSV (v' :: vs)).
    rewrite IH by discriminate.
    simpl. now rewrite append_nil_r.
Qed.

Lemma parseFrom_lines (r0 : list JsValue) (rows : list (list JsValue)) :
  r0 <> [] -> (forall r, In r rows -> r <> []) ->
  parseFrom false (join CRLF (map lineOf (r0 :: rows)))
  = toPartial (map cellText r0) (map (map cellText) rows).
Proof.
  revert r0. induction rows as [|r1 rows IH]; intros r0 H0 Hall.
  - simpl map. rewrite join_single.
    rewrite <- (append_nil_r (lineOf r0)).
    now apply parseFrom_line.
  - change (map lineOf (r0 :: r1 :: rows))
      with (lineOf r0 :: lineOf r1 :: map lineOf rows).
    rewrite join_cons.
    apply parseFrom_line; [assumption | reflexivity |].
    rewrite parseFrom_crlf.
    change (lineOf r1 :: map lineOf rows) with (map lineOf (r1 :: rows)).
    rewrite IH.
    + assert (H1 : r1 <> []) by (apply Hall; now left).
      destruct r1 as [|v r1]; [contradiction | reflexivity].
    + apply Hall. now left.
    + intros r Hr. apply Hall. now right.
Qed.

Lemma generateCSV_lines (columns : list CsvExport.Column)
  (data : list JsObject) :
  CsvExport.generateCSV columns data
  = join CRLF
      (map lineOf
         (map (fun col => JsString (CsvExport.header col)) columns
          :: map (fun row =>
                    map (fun col =>
                           CsvExport.getCellValue row (CsvExport.accessor col))
                        columns)
                 data)).
Proof.
  unfold CsvExport.generateCSV, CsvExport.headerLine. cbv zeta.
  rewrite (map_cons lineOf). unfold lineOf at 1. rewrite !map_map.
  f_equal. f_equal.
  apply map_ext. intros row. unfold CsvExport.rowLine, lineOf.
  now rewrite map_map.
Qed.

(** Reading back the export of a table with at least one column. *)
Lemma parseCSV_generateCSV (columns : list CsvExport.Column)
  (data : list JsObject) :
  columns <> [] ->
  parseCSV (CsvExport.generateCSV columns data) = exportedGrid columns data.
Proof.
  intros Hne. unfold parseCSV. rewrite generateCSV_lines.
  rewrite parseFrom_lines.
  - unfold exportedGrid. rewrite !map_map.
    rewrite (map_ext
               (fun row =>
                  map cellText
                    (map (fun col =>
                            CsvExport.getCellValue row (CsvExport.accessor col))
                         columns))
               (fun row =>
                  map (fun col =>
                         cellText
                           (CsvExport.getCellValue row (CsvExport.accessor col)))
                      columns))
      by (intros row; apply map_map).
    destruct columns as [|c columns]; [contradiction | reflexivity].
  - destruct columns; [contradiction | discriminate].
  - intros r Hr. apply in_map_iff in Hr as (row & <- & _).
    destruct columns; [contradiction | discriminate].
Qed.

(** A table without columns is written as one empty line per row, which
    reads back as one empty field per row; it is the text of the one-column
    table with an empty header and empty cells. *)
Lemma empty_columns_blank_fields :
  parseCSV (CsvExport.generateCSV [] [blankRow])
    = [[EmptyString]; [EmptyString]] /\
  exportedGrid [] [blankRow] = [[]; []] /\
  CsvExport.generateCSV [] [blankRow]
    = CsvExport.generateCSV [blankColumn] [blankRow].
Proof. split; [|split]; vm_compute; reflexivity. Qed.

(** C3: for every column list and every row list whose cell values are
    strings, reading the text of [generateCSV] back by the documented rules
    (fields separated by commas, rows by CR LF, a field with a comma, a
    quote or a line break wrapped in quotes with its quotes doubled)
    recovers exactly the header labels and the cell values, also a cell
    value that contains quotes, commas and a line break; with at least one
    column the grid read back is exactly the header labels followed by the
    rows of cell values. *)
Theorem C3_round_trip (columns : list CsvExport.Column)
  (data : list JsObject) :
  stringCells columns data ->
  roundTrips columns data /\
  (columns <> [] ->
   parseCSV (CsvExport.generateCSV columns data) = exportedGrid columns data).
Proof.
  intros Hstr. split; [|apply parseCSV_generateCSV].
  destruct columns as [|col0 columns].
  { split; [intros c col H | intros r row c col _ H];
      destruct c; discriminate H. }
  unfold roundTrips. cbv zeta.
  rewrite parseCSV_generateCSV by discriminate.
  set (cols := col0 :: columns) in *.
  split.
  - intros c col Hc. eexists. split; [reflexivity|].
    now apply map_nth_error.
  - intros r row c col Hr Hc.
    destruct (Hstr row col) as [s Hs];
      [eapply nth_error_In; eassumption .. |].
    eexists. exists s. split; [|split; [|exact Hs]].
    + unfold exportedGrid. simpl nth_error.
      apply map_nth_error. exact Hr.
    + change (nth_error
                (map (fun col1 =>
                        cellText (CsvExport.getCellValue row
                                    (CsvExport.accessor col1)))
                     cols) c = Some s).
      rewrite (map_nth_error _ _ _ Hc). rewrite Hs. reflexivity.
Qed.

Lemma C3_round_trip_witness :
  parseCSV (CsvExport.generateCSV [nameColumn; noteColumn] [trickyRow])
  = [["Name, quoted"; "Note"]; [trickyValue; "plain"]] /\
  roundTrips [nameColumn; noteColumn] [trickyRow].
Proof.
  assert (Hstr : stringCells [nameColumn; noteColumn] [trickyRow]).
  { intros row col [<-|[]] [<-|[<-|[]]]; vm_compute; eexists; reflexivity. }
  destruct (C3_round_trip [nameColumn; noteColumn] [trickyRow] Hstr)
    as [Hrt Hgrid].
  split; [|exact Hrt].
  rewrite Hgrid by discriminate. vm_compute. reflexivity.
Defined.

(** ** The shape of the exported text *)

Lemma join_terminated (l : string) (ls : list string) :
  join CRLF (l :: ls) +:+ CRLF = terminatedText (l :: ls).
Proof.
  revert l. induction ls as [|l' ls IH]; intros l.
  - rewrite join_single. simpl. now rewrite append_nil_r.
  - rewrite join_cons, !append_assoc, IH. reflexivity.
Qed.

(** C8, as stated, fails on every table: the last row is not followed by
    CR LF.  The columns Name and Note without any data row give the header
    line alone, with no CR LF after it. *)
Lemma C8_crlf_terminated_counterexample :
  CsvExport.generateCSV [nameColumn; noteColumn] []
    = CsvExport.headerLine [nameColumn; noteColumn] /\
  terminatedText
    (CsvExport.headerLine [nameColumn; noteColumn]
     :: map (CsvExport.rowLine [nameColumn; noteColumn]) [])
    = CsvExport.headerLine [nameColumn; noteColumn] +:+ CRLF /\
  CsvExport.generateCSV [nameColumn; noteColumn] []
  <> terminatedText
       (CsvExport.headerLine [nameColumn; noteColumn]
        :: map (CsvExport.rowLine [nameColumn; noteColumn]) []).
Proof.
  split; [reflexivity|]. split; [reflexivity|].
  intros H. vm_compute in H. discriminate H.
Qed.

(** C8 (amended): the text produced by [generateCSV] consists of the header
    row followed by one row per data element in data order, the rows
    separated by CR LF (the text followed by one more CR LF is the text in
    which every row is terminated by CR LF), each row's fields being the
    escaped cell values joined by commas. *)
Theorem C8_rows_separated_by_crlf (columns : list CsvExport.Column)
  (data : list JsObject) :
  let headerRow :=
    lineOf (map (fun col => JsString (CsvExport.header col)) columns) in
  let dataRows :=
    map (fun row =>
           lineOf (map (fun col =>
                          CsvExport.getCellValue row (CsvExport.accessor col))
                       columns))
        data in
  CsvExport.generateCSV columns data = join CRLF (headerRow :: dataRows) /\
  CsvExport.generateCSV columns data +:+ CRLF
  = terminatedText (headerRow :: dataRows) /\
  length dataRows = length data.
Proof.
  intros headerRow dataRows.
  assert (H : CsvExport.generateCSV columns data
              = join CRLF (headerRow :: dataRows)).
  { rewrite generateCSV_lines. subst headerRow dataRows.
    now rewrite (map_cons lineOf), map_map. }
  split; [exact H|]. split.
  - rewrite H. apply join_terminated.
  - subst dataRows. apply length_map.
Qed.

(** ** The global filter *)

Lemma prefix_spec (a b : string) :
  String.prefix a b = true <-> exists post, b = a +:+ post.
Proof.
  revert b. induction a as [|x a IH]; intros b.
  - rewrite prefix_nil. split; [|reflexivity].
    intros _. now exists b.
  - destruct b as [|y b]; simpl.
    + split; [discriminate|]. intros [post H]. discriminate H.
    + destruct (Ascii.ascii_dec x y) as [->|Hne].
      * rewrite IH. split; intros [post H]; exists post.
        -- now rewrite append_cons, H.
        -- rewrite append_cons in H. now inversion H.
      * split; [discriminate|]. intros [post H].
        rewrite append_cons in H. inversion H. congruence.
Qed.

Lemma includes_unfold (s sub : string) :
  includes s sub =
  String.prefix sub s ||
  match s with
  | EmptyString => false
  | String _ s' => includes s' sub
  end.
Proof. destruct s; reflexivity. Qed.

Lemma includes_spec (s sub : string) :
  includes s sub = true <-> isSubstring sub s.
Proof.
  split.
  - induction s as [|c s IH]; rewrite includes_unfold; intros H;
      apply orb_true_iff in H as [H|H].
    + apply prefix_spec in H as [post ->]. now exists EmptyString, post.
    + discriminate H.
    + apply prefix_spec in H as [post ->]. now exists EmptyString, post.
    + destruct (IH H) as (pre & post & ->).
      exists (String c pre), post. now rewrite append_cons.
  - intros (pre & post & ->). induction pre as [|c pre IH];
      rewrite includes_unfold; apply orb_true_iff.
    + left. apply prefix_spec. now exists post.
    + right. rewrite append_cons. exact IH.
Qed.

Lemma toLowerCase_empty (s : string) :
  toLowerCase s = EmptyString <-> s = EmptyString.
Proof. destruct s; simpl; split; congruence. Qed.

Lemma lowered_cell (v : JsValue) :
  (if negb (isNullish v) then toLowerCase (toString v) else EmptyString)
  = toLowerCase (cellText v).
Proof. unfold cellText. now destruct (isNullish v). Qed.

Lemma globalFilterFn_active (cells : list JsValue) (columnId text : string) :
  text <> EmptyString ->
  UseDataTable.globalFilterFn cells columnId (JsString text)
  = existsb (fun v => includes (toLowerCase (cellText v)) (toLowerCase text))
            cells.
Proof.
  intros Hne. unfold UseDataTable.globalFilterFn. cbv zeta.
  change (toString (JsString text)) with text.
  destruct (String.eqb_spec (toLowerCase text) EmptyString) as [E|_].
  - apply (proj1 (toLowerCase_empty _)) in E. contradiction.
  - induction cells as [|v cells IH]; [reflexivity|].
    simpl. rewrite lowered_cell. now rewrite IH.
Qed.

(** C5: the global filter keeps a row iff the filter text is empty, or the
    lowercased string form of some cell value of the row contains the
    lowercased filter text; a cell holding null or undefined counts as the
    empty string and never matches a non-empty filter text (dropping such
    cells from the row does not change the outcome, and a row of such cells
    only is rejected). *)
Theorem C5_global_filter (cells : list JsValue) (columnId text : string) :
  (UseDataTable.globalFilterFn cells columnId (JsString text) = true <->
   text = EmptyString \/
   exists v, In v cells /\
             isSubstring (toLowerCase text) (toLowerCase (cellText v))) /\
  (text <> EmptyString ->
   (forall v, isNullish v = true ->
      ~ isSubstring (toLowerCase text) (toLowerCase (cellText v))) /\
   UseDataTable.globalFilterFn cells columnId (JsString text)
   = UseDataTable.globalFilterFn
       (List.filter (fun v => negb (isNullish v)) cells) columnId
       (JsString text) /\
   (forallb isNullish cells = true ->
    UseDataTable.globalFilterFn cells columnId (JsString text) = false)).
Proof.
  split.
  - destruct (String.eqb_spec text EmptyString) as [->|Hne].
    + split; [now left | reflexivity].
    + rewrite globalFilterFn_active by assumption.
      rewrite existsb_exists. split.
      * intros (v & Hin & Hinc). right. exists v. split; [assumption|].
        now apply includes_spec.
      * intros [E | (v & Hin & Hsub)]; [contradiction|].
        exists v. split; [assumption|]. now apply includes_spec.
  - intros Hne.
    assert (Hnull : forall v, isNullish v = true ->
              includes (toLowerCase (cellText v)) (toLowerCase text) = false).
    { intros v Hv. unfold cellText. rewrite Hv. simpl.
      destruct (toLowerCase text) eqn:E; [|reflexivity].
      apply (proj1 (toLowerCase_empty _)) in E. contradiction. }
    split; [|split].
    + intros v Hv Hsub. apply includes_spec in Hsub.
      rewrite (Hnull v Hv) in Hsub. discriminate Hsub.
    + rewrite !globalFilterFn_active by assumption.
      induction cells as [|v cells IH]; [reflexivity|].
      simpl. destruct (isNullish v) eqn:Hv; simpl.
      * now rewrite (Hnull v Hv).
      * now rewrite IH.
    + intros Hall. rewrite globalFilterFn_active by assumption.
      induction cells as [|v cells IH]; [reflexivity|].
      simpl in Hall. apply andb_true_iff in Hall as [Hv Hrest].
      simpl. now rewrite (Hnull v Hv), IH.
Qed.

Lemma C5_global_filter_witness :
  UseDataTable.globalFilterFn [JsNull; JsString "Alice"; JsNumber 42] "name"
    (JsString "LIC") = true /\
  UseDataTable.globalFilterFn [JsNull; JsUndefined] "name" (JsString "null")
  = false.
Proof.
  split.
  - apply (proj1 (C5_global_filter [JsNull; JsString "Alice"; JsNumber 42]
                    "name" "LIC")).
    right. exists (JsString "Alice"). split; [right; now left|].
    exists "a", "e". reflexivity.
  - destruct (proj2 (C5_global_filter [JsNull; JsUndefined] "name" "null"))
      as (_ & _ & H); [discriminate|].
    apply H. reflexivity.
Defined.

(** ** The table state *)

(** C7: [clearAllFilters] sets the global filter to the empty string,
    empties the per-column filter list and resets pageIndex to 0; pageSize,
    the sorting state and the row-selection state stay as they were. *)
Theorem C7_clearAllFilters_frame (st : UseDataTable.State) :
  let st' := UseDataTable.clearAllFilters st in
  UseDataTable.globalFilter st' = EmptyString /\
  UseDataTable.columnFilters st' = [] /\
  UseDataTable.pageIndex (UseDataTable.pagination st') = 0 /\
  UseDataTable.pageSize (UseDataTable.pagination st')
    = UseDataTable.pageSize (UseDataTable.pagination st) /\
  UseDataTable.sorting st' = UseDataTable.sorting st /\
  UseDataTable.rowSelection st' = UseDataTable.rowSelection st /\
  UseDataTable.hasActiveFilters st' = false.
Proof. destruct st as [so cf gf rs [pi ps]]. repeat split. Qed.

(** ** Sorting *)

Section SortStability.
Context {T : Type}.
Variable compare : string -> T -> T -> Z.

(** Ties of a column comparator form an equivalence. *)
Hypothesis compare_tie_sym :
  forall c a b, compare c a b = 0 -> compare c b a = 0.
Hypothesis compare_tie_trans :
  forall c a b d, compare c a b = 0 -> compare c b d = 0 -> compare c a d = 0.

Lemma directed_zero (k : UseDataTable.ColumnSort) (a b : T) :
  compare (UseDataTable.id k) a b = 0 -> SortEngine.directed compare k a b = 0.
Proof.
  intros H. unfold SortEngine.directed. rewrite H.
  now destruct (UseDataTable.desc k).
Qed.

Lemma tied_compareRows (spec : list UseDataTable.ColumnSort) (r x y : T) :
  SortEngine.tied compare spec r x = true ->
  SortEngine.tied compare spec r y = true ->
  SortEngine.compareRows compare spec x y = 0.
Proof.
  induction spec as [|k spec IH]; simpl; intros Hx Hy; [reflexivity|].
  apply andb_true_iff in Hx as [Hx1 Hx2].
  apply andb_true_iff in Hy as [Hy1 Hy2].
  apply Z.eqb_eq in Hx1, Hy1.
  rewrite directed_zero by eauto.
  simpl. now apply IH.
Qed.

Lemma filter_insertRow (spec : list UseDataTable.ColumnSort) (r x : T)
  (l : list T) :
  List.filter (SortEngine.tied compare spec r) (SortEngine.insertRow compare spec x l)
  = List.filter (SortEngine.tied compare spec r) (x :: l).
Proof.
  induction l as [|y l IH]; [reflexivity|].
  simpl SortEngine.insertRow.
  destruct (0 <? SortEngine.compareRows compare spec x y) eqn:Hgt;
    [|reflexivity].
  apply Z.ltb_lt in Hgt.
  simpl List.filter at 1. rewrite IH. simpl.
  destruct (SortEngine.tied compare spec r x) eqn:Hx;
    destruct (SortEngine.tied compare spec r y) eqn:Hy; try reflexivity.
  pose proof (tied_compareRows spec r x y Hx Hy). lia.
Qed.

Lemma filter_sort (spec : list UseDataTable.ColumnSort) (r : T)
  (rows : list T) :
  List.filter (SortEngine.tied compare spec r) (SortEngine.sort compare spec rows)
  = List.filter (SortEngine.tied compare spec r) rows.
Proof.
  induction rows as [|x rows IH]; [reflexivity|].
  change (SortEngine.sort compare spec (x :: rows))
    with (SortEngine.insertRow compare spec x (SortEngine.sort compare spec rows)).
  rewrite filter_insertRow. simpl. now rewrite IH.
Qed.

End SortStability.

Lemma sort_no_keys {T : Type} (compare : string -> T -> T -> Z)
  (rows : list T) :
  SortEngine.sort compare [] rows = rows.
Proof.
  induction rows as [|x rows IH]; [reflexivity|].
  change (SortEngine.sort compare [] (x :: rows))
    with (SortEngine.insertRow compare [] x (SortEngine.sort compare [] rows)).
  rewrite IH. now destruct rows.
Qed.

Lemma insertRow_Permutation {T : Type} (compare : string -> T -> T -> Z)
  (spec : list UseDataTable.ColumnSort) (x : T) (l : list T) :
  Permutation (SortEngine.insertRow compare spec x l) (x :: l).
Proof.
  induction l as [|y l IH]; [reflexivity|]. simpl.
  destruct (0 <? SortEngine.compareRows compare spec x y); [|reflexivity].
  rewrite IH. apply perm_swap.
Qed.

(** The sorted rows are the given rows, rearranged. *)
Lemma sort_Permutation {T : Type} (compare : string -> T -> T -> Z)
  (spec : list UseDataTable.ColumnSort) (rows : list T) :
  Permutation (SortEngine.sort compare spec rows) rows.
Proof.
  induction rows as [|x rows IH]; [reflexivity|].
  change (SortEngine.sort compare spec (x :: rows))
    with (SortEngine.insertRow compare spec x (SortEngine.sort compare spec rows)).
  rewrite insertRow_Permutation. now rewrite IH.
Qed.

Section SortOrder.
Context {T : Type}.
Variable compare : string -> T -> T -> Z.

(** Swapping the arguments of a column comparator flips the sign. *)
Hypothesis compare_antisym :
  forall c a b, compare c b a = - compare c a b.

Let le (spec : list UseDataTable.ColumnSort) (a b : T) : Prop :=
  SortEngine.compareRows compare spec a b <= 0.

Lemma compareRows_antisym (spec : list UseDataTable.ColumnSort) (a b : T) :
  SortEngine.compareRows compare spec b a
  = - SortEngine.compareRows compare spec a b.
Proof.
  induction spec as [|k spec IH]; [reflexivity|]. simpl.
  assert (Hd : SortEngine.directed compare k b a
               = - SortEngine.directed compare k a b).
  { unfold SortEngine.directed. rewrite compare_antisym.
    destruct (UseDataTable.desc k); lia. }
  rewrite Hd.
  destruct (Z.eqb_spec (SortEngine.directed compare k a b) 0) as [E|E];
    destruct (Z.eqb_spec (- SortEngine.directed compare k a b) 0); lia.
Qed.

Lemma insertRow_HdRel (spec : list UseDataTable.ColumnSort) (a x : T)
  (l : list T) :
  HdRel (le spec) a l -> le spec a x ->
  HdRel (le spec) a (SortEngine.insertRow compare spec x l).
Proof.
  intros Hl Hx. destruct l as [|y l]; simpl; [now constructor|].
  destruct (0 <? SortEngine.compareRows compare spec x y);
    constructor; [now inversion Hl | assumption].
Qed.

Lemma insertRow_Sorted (spec : list UseDataTable.ColumnSort) (x : T)
  (l : list T) :
  Sorted (le spec) l ->
  Sorted (le spec) (SortEngine.insertRow compare spec x l).
Proof.
  induction 1 as [|y l Hs IH Hhd]; simpl; [repeat constructor|].
  destruct (0 <? SortEngine.compareRows compare spec x y) eqn:Hgt.
  - apply Z.ltb_lt in Hgt. constructor; [assumption|].
    apply insertRow_HdRel; [assumption|].
    unfold le. rewrite compareRows_antisym. lia.
  - apply Z.ltb_ge in Hgt. repeat constructor; assumption.
Qed.

(** The output is in order: no row is followed by a smaller one. *)
Lemma sort_Sorted (spec : list UseDataTable.ColumnSort) (rows : list T) :
  Sorted (fun a b => SortEngine.compareRows compare spec a b <= 0)
         (SortEngine.sort compare spec rows).
Proof.
  induction rows as [|x rows IH]; [constructor|].
  change (SortEngine.sort compare spec (x :: rows))
    with (SortEngine.insertRow compare spec x (SortEngine.sort compare spec rows)).
  now apply insertRow_Sorted.
Qed.

End SortOrder.

(** C6: sorting is stable.  For every dataset, every sort spec and every
    row [r], the rows that tie with [r] on all active sort keys appear in
    the sorted output in their original relative order; with an empty sort
    spec the output order is the input order.  (Column comparators are
    assumed consistent: their ties are symmetric and transitive.) *)
Theorem C6_sort_stable {T : Type} (compare : string -> T -> T -> Z)
  (enableSorting : bool) (spec : list UseDataTable.ColumnSort)
  (rows : list T) (r : T) :
  (forall c a b, compare c a b = 0 -> compare c b a = 0) ->
  (forall c a b d,
     compare c a b = 0 -> compare c b d = 0 -> compare c a d = 0) ->
  List.filter (SortEngine.tied compare spec r)
    (SortEngine.sortedRows compare enableSorting spec rows)
  = List.filter (SortEngine.tied compare spec r) rows /\
  SortEngine.sortedRows compare enableSorting [] rows = rows /\
  Permutation (SortEngine.sortedRows compare enableSorting spec rows) rows.
Proof.
  intros Hsym Htrans. unfold SortEngine.sortedRows.
  destruct enableSorting.
  - split; [|split].
    + now apply filter_sort.
    + apply sort_no_keys.
    + apply sort_Permutation.
  - repeat split; reflexivity.
Qed.

Lemma compareProp_tie (c : string) (a b : JsObject) :
  compareProp c a b = 0 <->
  numberOf (getProp a c) = numberOf (getProp b c).
Proof. unfold compareProp. lia. Qed.

Lemma C6_sort_stable_witness :
  SortEngine.sortedRows compareProp true byV
    [mkRow "p" 2; mkRow "q" 1; mkRow "r" 2; mkRow "s" 1]
  = [mkRow "q" 1; mkRow "s" 1; mkRow "p" 2; mkRow "r" 2] /\
  List.filter (SortEngine.tied compareProp byV (mkRow "p" 2))
    (SortEngine.sortedRows compareProp true byV
       [mkRow "p" 2; mkRow "q" 1; mkRow "r" 2; mkRow "s" 1])
  = List.filter (SortEngine.tied compareProp byV (mkRow "p" 2))
      [mkRow "p" 2; mkRow "q" 1; mkRow "r" 2; mkRow "s" 1].
Proof.
  split; [vm_compute; reflexivity|].
  apply (C6_sort_stable compareProp true byV
           [mkRow "p" 2; mkRow "q" 1; mkRow "r" 2; mkRow "s" 1]
           (mkRow "p" 2)).
  - intros c a b H. apply compareProp_tie. apply compareProp_tie in H. lia.
  - intros c a b d H1 H2. apply compareProp_tie.
    apply compareProp_tie in H1, H2. lia.
Defined.

(** ** The CSV export of the component *)

Lemma exportData_selected (table : TableInstance.Table) :
  TableInstance.getSelectedRowModel table <> [] ->
  DataTable.exportData true table
  = map TableInstance.original (TableInstance.getSelectedRowModel table).
Proof.
  intros Hne. unfold DataTable.exportData, UseDataTable.selectedRows.
  cbv zeta. simpl negb. cbv iota.
  destruct (TableInstance.getSelectedRowModel table); [contradiction|].
  reflexivity.
Qed.

Lemma exportData_unselected (enableRowSelection : bool)
  (table : TableInstance.Table) :
  enableRowSelection = false \/ TableInstance.getSelectedRowModel table = [] ->
  DataTable.exportData enableRowSelection table
  = map TableInstance.original (TableInstance.getFilteredRowModel table).
Proof.
  unfold DataTable.exportData, UseDataTable.selectedRows.
  intros [-> | H]; [reflexivity|].
  rewrite H. now destruct enableRowSelection.
Qed.

(** The sorted row model holds the rows of the filtered one. *)
Lemma tableOf_sorted_Permutation (getRowId : JsObject -> string)
  (compare : string -> JsObject -> JsObject -> Z)
  (passes : JsObject -> bool) (enableSorting : bool)
  (st : UseDataTable.State) (data : list JsObject) :
  let table := tableOf getRowId compare passes enableSorting st data in
  Permutation (TableInstance.getFilteredRowModel table)
              (TableInstance.getSortedRowModel table).
Proof.
  simpl. unfold SortEngine.sortedRows.
  destruct enableSorting; [|reflexivity].
  symmetry. apply sort_Permutation.
Qed.

(** The export does not follow the sort order of the view: the filtered
    and the selected row model are in data order.  With rows a (v=3),
    b (v=1), c (v=2) sorted by v the view is b, c, a and the export
    a, b, c; with a and c selected the export is a, c. *)
Lemma export_in_data_order :
  map rowName (map TableInstance.original
                 (TableInstance.getSortedRowModel (exampleTable sortedState)))
    = ["b"; "c"; "a"] /\
  map rowName (DataTable.exportData true (exampleTable sortedState))
    = ["a"; "b"; "c"] /\
  map rowName (claimedExport sortedState (exampleTable sortedState))
    = ["b"; "c"; "a"] /\
  map rowName (DataTable.exportData true (exampleTable selectedState))
    = ["a"; "c"] /\
  map rowName (claimedExport selectedState (exampleTable selectedState))
    = ["c"; "a"].
Proof. repeat split; vm_compute; reflexivity. Qed.

(** C4, as stated, fails for a selected row that the filter hides: with
    row a selected and the global filter 1 (which only row b passes) the
    export is row a, while the selected rows of the filtered view are
    none. *)
Lemma C4_export_selection_counterexample :
  map rowName (map TableInstance.original
                 (TableInstance.getFilteredRowModel (exampleTable hiddenState)))
    = ["b"] /\
  map rowName (DataTable.exportData true (exampleTable hiddenState))
    = ["a"] /\
  claimedExport hiddenState (exampleTable hiddenState) = [] /\
  DataTable.exportData true (exampleTable hiddenState)
    <> claimedExport hiddenState (exampleTable hiddenState).
Proof.
  repeat split; try (vm_compute; reflexivity).
  intros H. apply (f_equal (@length JsObject)) in H.
  vm_compute in H. discriminate H.
Qed.

(** C4 (amended): when CSV export is triggered and at least one row is
    selected, exactly the selected rows are exported, whether or not the
    current filter shows them; when no row is selected (or row selection is
    off), exactly the rows of the current filtered view are exported. *)
Theorem C4_export_rows (getRowId : JsObject -> string)
  (compare : string -> JsObject -> JsObject -> Z)
  (passes : JsObject -> bool) (enableSorting enableRowSelection : bool)
  (st : UseDataTable.State) (data : list JsObject) :
  let table := tableOf getRowId compare passes enableSorting st data in
  let selected :=
    List.filter (isSelected (UseDataTable.rowSelection st))
                (TableInstance.getCoreRowModel table) in
  (enableRowSelection = true -> selected <> [] ->
   Permutation (DataTable.exportData enableRowSelection table)
               (map TableInstance.original selected)) /\
  (enableRowSelection = false \/ selected = [] ->
   Permutation (DataTable.exportData enableRowSelection table)
               (map TableInstance.original
                    (TableInstance.getSortedRowModel table))).
Proof.
  intros table selected. split.
  - intros -> Hne. rewrite exportData_selected by exact Hne. reflexivity.
  - intros H. rewrite exportData_unselected by exact H.
    apply Permutation_map. apply tableOf_sorted_Permutation.
Qed.

Lemma C4_export_rows_witness :
  Permutation (DataTable.exportData true (exampleTable hiddenState))
              [rowA] /\
  Permutation (DataTable.exportData true (exampleTable sortedState))
              [rowB; rowC; rowA].
Proof.
  split.
  - apply (proj1 (C4_export_rows rowName compareProp
                    (passesGlobal hiddenState) true true hiddenState
                    [rowA; rowB; rowC]));
      [reflexivity | vm_compute; discriminate].
  - apply (proj2 (C4_export_rows rowName compareProp
                    (passesGlobal sortedState) true true sortedState
                    [rowA; rowB; rowC])).
    right. vm_compute. reflexivity.
Defined.

(** * Further properties of the code *)

(** ** The body under virtual scrolling *)

Lemma pushItems_length (est : Z) (n : nat) (i : Z) :
  length (VirtualScroll.pushItems est n i) = n.
Proof.
  revert i. induction n as [|n IH]; intros i; simpl; [reflexivity|].
  now rewrite IH.
Qed.

Lemma topSpacer_pushItems (est : Z) (n : nat) (i : Z) :
  DataTableBody.topSpacer (VirtualScroll.pushItems est (S n) i) = i * est.
Proof. reflexivity. Qed.

Lemma lastEnd_pushItems (est : Z) (n : nat) (i : Z) :
  DataTableBody.lastEnd (VirtualScroll.pushItems est (S n) i)
  = (i + Z.of_nat n + 1) * est.
Proof.
  revert i. induction n as [|n IH]; intros i.
  - simpl. f_equal. lia.
  - change (DataTableBody.lastEnd (VirtualScroll.pushItems est (S (S n)) i))
      with (DataTableBody.lastEnd (VirtualScroll.pushItems est (S n) (i + 1))).
    rewrite IH. f_equal. lia.
Qed.

Lemma rowAt_in_range {A : Type} (allRows : list A) (i : Z) :
  0 <= i < Z.of_nat (length allRows) ->
  exists row, DataTableBody.rowAt allRows i = Some row.
Proof.
  intros Hi. unfold DataTableBody.rowAt.
  destruct (Z.ltb_spec i 0) as [Hneg|_]; [lia|].
  destruct (nth_error allRows (Z.to_nat i)) as [row|] eqn:E; [now exists row|].
  apply nth_error_None in E. lia.
Qed.

Lemma renderedRows_pushItems {A : Type} (allRows : list A) (est : Z)
  (n : nat) (i : Z) :
  0 <= i -> i + Z.of_nat n <= Z.of_nat (length allRows) ->
  length (DataTableBody.renderedRows allRows (VirtualScroll.pushItems est n i))
  = n.
Proof.
  revert i. induction n as [|n IH]; intros i Hi Hn; [reflexivity|].
  simpl. destruct (rowAt_in_range allRows i) as [row ->]; [lia|].
  simpl. rewrite IH; [reflexivity | lia | lia].
Qed.

(** The heights of the spacers and of the rendered rows add up to the
    total height, for any window the hook computes. *)
Lemma bodyHeight_total {A : Type} (allRows : list A)
  (o : VirtualScroll.VirtualScrollOptions) (scrollTop : Z) :
  VirtualScroll.enabled o = true ->
  0 < VirtualScroll.estimateSize o ->
  VirtualScroll.count o = Z.of_nat (length allRows) ->
  DataTableBody.bodyHeight allRows (VirtualScroll.totalHeight o)
    (VirtualScroll.estimateSize o) (VirtualScroll.virtualRows o scrollTop)
  = VirtualScroll.totalHeight o /\
  length (DataTableBody.renderedRows allRows
            (VirtualScroll.virtualRows o scrollTop))
  = length (VirtualScroll.virtualRows o scrollTop).
Proof.
  intros He Hest Hc.
  unfold DataTableBody.bodyHeight, VirtualScroll.totalHeight.
  destruct (Z.eq_dec (VirtualScroll.count o) 0) as [Hz|Hnz].
  { unfold VirtualScroll.virtualRows. rewrite Hz. simpl.
    rewrite orb_true_r. simpl. split; [lia | reflexivity]. }
  rewrite virtualRows_active by assumption.
  pose proof (startIndex_nonneg o scrollTop) as Hs.
  pose proof (endIndex_le_last o scrollTop) as Hend.
  set (s := VirtualScroll.startIndex o scrollTop) in *.
  set (e := VirtualScroll.endIndex o scrollTop) in *.
  assert (Hpos : 0 < VirtualScroll.count o * VirtualScroll.estimateSize o)
    by nia.
  destruct (Z.ltb_spec 0 (VirtualScroll.count o * VirtualScroll.estimateSize o))
    as [_|Hle]; [|lia].
  rewrite pushItems_length.
  destruct (Z.to_nat (e + 1 - s)) as [|n] eqn:En.
  - simpl. unfold DataTableBody.bottomSpacer. simpl. split; [lia | reflexivity].
  - assert (Hn : Z.of_nat n = e - s) by lia.
    rewrite renderedRows_pushItems by lia.
    split; [|reflexivity].
    rewrite topSpacer_pushItems. unfold DataTableBody.bottomSpacer.
    rewrite lastEnd_pushItems.
    rewrite Hn. nia.
Qed.

(** X1: with virtual scrolling on, whatever the scroll offset, the viewport
    height, the density and the rows, the body of the table is as high as
    all rows together: the spacer above, the rendered rows and the spacer
    below add up to [totalHeight], and every virtual row finds its data
    row. *)
Theorem body_height_is_total_height {A : Type} (allRows : list A)
  (compact : bool) (virtualScrollHeight scrollTop : Z) :
  let o := DataTableBody.virtualOptions true compact (length allRows)
             virtualScrollHeight in
  let virtualRows := VirtualScroll.virtualRows o scrollTop in
  DataTableBody.bodyHeight allRows (VirtualScroll.totalHeight o)
    (VirtualScroll.estimateSize o) virtualRows
  = VirtualScroll.totalHeight o /\
  length (DataTableBody.renderedRows allRows virtualRows)
  = length virtualRows /\
  VirtualScroll.totalHeight o
  = Z.of_nat (length allRows) * (if compact then 36 else 44).
Proof.
  intros o virtualRows.
  destruct (bodyHeight_total allRows o scrollTop) as [H1 H2];
    [reflexivity | simpl; destruct compact; lia | reflexivity |].
  split; [exact H1|]. split; [exact H2 | reflexivity].
Qed.

(** X2: the number of rows materialised does not depend on how many rows
    there are: for a positive row height and non-negative overscan and
    viewport height it is at most [visibleCount + 2*overscan + 1], where
    [visibleCount] rows of the estimated height just cover the viewport,
    and never more than [count]. *)
Theorem window_size_bounded (o : VirtualScroll.VirtualScrollOptions)
  (scrollTop : Z) :
  0 <= VirtualScroll.count o ->
  0 < VirtualScroll.estimateSize o ->
  0 <= VirtualScroll.overscanOf o ->
  0 <= VirtualScroll.containerHeight o ->
  Z.of_nat (length (VirtualScroll.virtualRows o scrollTop))
    <= VirtualScroll.visibleCount o + 2 * VirtualScroll.overscanOf o + 1 /\
  Z.of_nat (length (VirtualScroll.virtualRows o scrollTop))
    <= VirtualScroll.count o /\
  (VirtualScroll.visibleCount o - 1) * VirtualScroll.estimateSize o
    < VirtualScroll.containerHeight o
    <= VirtualScroll.visibleCount o * VirtualScroll.estimateSize o.
Proof.
  intros Hc Hest Hov Hh.
  pose proof (ceilDiv_nonneg _ _ Hest Hh) as Hvis.
  fold (VirtualScroll.visibleCount o) in Hvis.
  assert (Hlen : Z.of_nat (length (VirtualScroll.virtualRows o scrollTop))
                 <= Z.max 0 (VirtualScroll.endIndex o scrollTop + 1
                             - VirtualScroll.startIndex o scrollTop)).
  { unfold VirtualScroll.virtualRows.
    destruct (negb (VirtualScroll.enabled o) || (VirtualScroll.count o =? 0));
      [simpl; lia|].
    cbv zeta. rewrite pushItems_length. lia. }
  pose proof (startIndex_nonneg o scrollTop) as Hs.
  pose proof (endIndex_le_last o scrollTop) as He.
  assert (He2 : VirtualScroll.endIndex o scrollTop
                <= VirtualScroll.startIndex o scrollTop
                   + VirtualScroll.visibleCount o
                   + VirtualScroll.overscanOf o * 2)
    by (unfold VirtualScroll.endIndex; lia).
  split; [lia|]. split; [lia|].
  apply ceilDiv_spec. exact Hest.
Qed.

Lemma window_size_bounded_witness :
  Z.of_nat (length (VirtualScroll.virtualRows exampleOptions 2000)) <= 26.
Proof.
  destruct (window_size_bounded exampleOptions 2000
              ltac:(by_eval) ltac:(by_eval) ltac:(by_eval) ltac:(by_eval))
    as [H _].
  exact H.
Defined.

(** X3: scrolling down never moves the window up: for a positive row
    height both ends of the window are monotone in the scroll offset; and
    the window only changes when the offset crosses a row boundary: two
    offsets within the same row give the same virtual rows. *)
Theorem window_monotone_in_scroll (o : VirtualScroll.VirtualScrollOptions)
  (scrollTop scrollTop' : Z) :
  0 < VirtualScroll.estimateSize o ->
  (scrollTop <= scrollTop' ->
   VirtualScroll.startIndex o scrollTop <= VirtualScroll.startIndex o scrollTop' /\
   VirtualScroll.endIndex o scrollTop <= VirtualScroll.endIndex o scrollTop') /\
  (floorDiv scrollTop (VirtualScroll.estimateSize o)
   = floorDiv scrollTop' (VirtualScroll.estimateSize o) ->
   VirtualScroll.virtualRows o scrollTop = VirtualScroll.virtualRows o scrollTop').
Proof.
  intros Hest. split.
  - intros Hle.
    assert (Hdiv : floorDiv scrollTop (VirtualScroll.estimateSize o)
                   <= floorDiv scrollTop' (VirtualScroll.estimateSize o))
      by (apply Z.div_le_mono; lia).
    unfold VirtualScroll.endIndex, VirtualScroll.startIndex. lia.
  - intros Heq.
    unfold VirtualScroll.virtualRows, VirtualScroll.endIndex,
      VirtualScroll.startIndex.
    now rewrite Heq.
Qed.

Lemma window_monotone_in_scroll_witness :
  VirtualScroll.startIndex exampleOptions 2000
    <= VirtualScroll.startIndex exampleOptions 2600 /\
  VirtualScroll.virtualRows exampleOptions 2000
  = VirtualScroll.virtualRows exampleOptions 2039.
Proof.
  destruct (window_monotone_in_scroll exampleOptions 2000 2600
              ltac:(by_eval)) as [Hmono _].
  destruct (window_monotone_in_scroll exampleOptions 2000 2039
              ltac:(by_eval)) as [_ Hsame].
  split; [apply Hmono; by_eval | apply Hsame; by_eval].
Defined.

(** ** The pagination bar *)

Lemma Zupto_length (n : nat) (a : Z) : length (Zupto n a) = n.
Proof.
  revert a. induction n as [|n IH]; intros a; simpl; [reflexivity|].
  now rewrite IH.
Qed.

Lemma pageNumbersOf_app (l1 l2 : list Pagination.PageEntry) :
  pageNumbersOf (l1 ++ l2) = pageNumbersOf l1 ++ pageNumbersOf l2.
Proof.
  induction l1 as [|[n|] l1 IH]; simpl; [reflexivity | now rewrite IH | exact IH].
Qed.

Lemma pageNumbersOf_numbers (l : list Z) :
  pageNumbersOf (map Pagination.PageNumber l) = l.
Proof. induction l as [|n l IH]; simpl; [reflexivity | now rewrite IH]. Qed.

(** The page numbers of the list, spelled out. *)
Lemma pageNumbersOf_getPageNumbers (pageCount pageIndex : Z) :
  pageNumbersOf (Pagination.getPageNumbers pageCount pageIndex)
  = if pageCount <=? 7 then Zupto (Z.to_nat pageCount) 0
    else 0 :: Zrange (Z.max 1 (pageIndex - 1))
                     (Z.min (pageCount - 2) (pageIndex + 1))
           ++ [pageCount - 1].
Proof.
  unfold Pagination.getPageNumbers.
  destruct (pageCount <=? 7); [apply pageNumbersOf_numbers|].
  rewrite !pageNumbersOf_app, pageNumbersOf_numbers.
  destruct (2 <? pageIndex); destruct (pageIndex <? pageCount - 3);
    reflexivity.
Qed.

(** X4: the page list never has more than seven entries, however many
    pages there are and whatever the page index is, and every page number
    in it is a page of the table (between 0 and pageCount - 1). *)
Theorem page_list_bounded (pageCount pageIndex : Z) :
  (length (Pagination.getPageNumbers pageCount pageIndex) <= 7)%nat /\
  forall n,
    In n (pageNumbersOf (Pagination.getPageNumbers pageCount pageIndex)) ->
    0 <= n <= pageCount - 1.
Proof.
  split.
  - unfold Pagination.getPageNumbers.
    destruct (Z.leb_spec pageCount 7) as [Hle|Hgt].
    + rewrite length_map, Zupto_length. lia.
    + rewrite !length_app, length_map. unfold Zrange.
      rewrite Zupto_length.
      destruct (2 <? pageIndex); destruct (pageIndex <? pageCount - 3);
        simpl; lia.
  - intros n. rewrite pageNumbersOf_getPageNumbers.
    destruct (Z.leb_spec pageCount 7) as [Hle|Hgt].
    + rewrite Zupto_In. lia.
    + simpl. rewrite in_app_iff, Zrange_In. simpl. lia.
Qed.

(** X5: when the page index is a page of the table, the list shows the
    first page, the last page and the current page. *)
Theorem page_list_shows_current (pageCount pageIndex : Z) :
  0 <= pageIndex < pageCount ->
  let shown := pageNumbersOf (Pagination.getPageNumbers pageCount pageIndex) in
  In 0 shown /\ In (pageCount - 1) shown /\ In pageIndex shown /\
  (1 <= pageIndex -> In (pageIndex - 1) shown) /\
  (pageIndex + 1 < pageCount -> In (pageIndex + 1) shown).
Proof.
  intros Hp shown. subst shown. rewrite pageNumbersOf_getPageNumbers.
  destruct (Z.leb_spec pageCount 7) as [Hle|Hgt].
  - rewrite !Zupto_In. lia.
  - simpl. rewrite !in_app_iff, !Zrange_In. simpl. lia.
Qed.

Lemma page_list_shows_current_witness :
  In 5 (pageNumbersOf (Pagination.getPageNumbers 20 5)) /\
  In 19 (pageNumbersOf (Pagination.getPageNumbers 20 5)).
Proof.
  destruct (page_list_shows_current 20 5 ltac:(by_eval))
    as (_ & Hlast & Hcur & _).
  split; [exact Hcur | exact Hlast].
Defined.

Lemma gapsMarked_numbers_app (prev : Z) (afterEllipsis : bool) (n : nat)
  (a : Z) (tl : list Pagination.PageEntry) :
  match n with
  | O => gapsMarked prev afterEllipsis tl
  | S m =>
      (if afterEllipsis then prev + 1 < a else a = prev + 1) /\
      gapsMarked (a + Z.of_nat m) false tl
  end ->
  gapsMarked prev afterEllipsis (map Pagination.PageNumber (Zupto n a) ++ tl).
Proof.
  revert prev afterEllipsis a. induction n as [|n IH];
    intros prev afterEllipsis a H; [exact H|].
  destruct H as [Hfirst Htl]. simpl. split; [exact Hfirst|].
  apply IH. destruct n as [|m].
  - now replace (a + Z.of_nat 0) with a in Htl by lia.
  - split; [reflexivity|].
    now replace (a + Z.of_nat (S m)) with (a + 1 + Z.of_nat m) in Htl by lia.
Qed.

(** X6: the page list starts with page 0, ends with the last page, and
    hides no gap: a page number that directly follows another is its
    successor, and each ellipsis mark stands between two page numbers with
    at least one page left out between them. *)
Theorem page_list_gaps_marked (pageCount pageIndex : Z) :
  1 <= pageCount ->
  exists rest,
    Pagination.getPageNumbers pageCount pageIndex
    = Pagination.PageNumber 0 :: rest /\
    gapsMarked 0 false rest /\
    last (pageNumbersOf (Pagination.getPageNumbers pageCount pageIndex))
    = Some (pageCount - 1).
Proof.
  intros Hpc. unfold Pagination.getPageNumbers.
  destruct (Z.leb_spec pageCount 7) as [Hle|Hgt].
  - destruct (Z.to_nat pageCount) as [|n] eqn:En; [lia|].
    exists (map Pagination.PageNumber (Zupto n 1)). split; [reflexivity|].
    split.
    + rewrite <- (app_nil_r (map _ _)).
      apply gapsMarked_numbers_app. destruct n; simpl; auto.
    + rewrite pageNumbersOf_numbers.
      assert (Hn : pageCount - 1 = 0 + Z.of_nat n) by lia. rewrite Hn.
      clear. generalize 0. induction n as [|n IH]; intros a.
      * simpl. f_equal. lia.
      * change (Zupto (S (S n)) a) with (a :: Zupto (S n) (a + 1)).
        rewrite last_cons. rewrite IH. f_equal. lia.
  - eexists. split; [reflexivity|]. split.
    + unfold Zrange.
      destruct (Z.ltb_spec 2 pageIndex) as [H2|H2];
        destruct (Z.ltb_spec pageIndex (pageCount - 3)) as [H3|H3];
        simpl app;
        repeat match goal with
               | |- gapsMarked _ _ (Pagination.Ellipsis :: _) =>
                   split; [reflexivity|]
               end;
        apply gapsMarked_numbers_app;
        destruct (Z.to_nat _) as [|m] eqn:Em; simpl; lia.
    + rewrite !pageNumbersOf_app. simpl pageNumbersOf at 4.
      rewrite !app_assoc. apply last_snoc.
Qed.

Lemma page_list_gaps_marked_witness :
  Pagination.getPageNumbers 20 5
  = [Pagination.PageNumber 0; Pagination.Ellipsis; Pagination.PageNumber 4;
     Pagination.PageNumber 5; Pagination.PageNumber 6; Pagination.Ellipsis;
     Pagination.PageNumber 19] /\
  exists rest,
    Pagination.getPageNumbers 20 5 = Pagination.PageNumber 0 :: rest /\
    gapsMarked 0 false rest.
Proof.
  split; [reflexivity|].
  destruct (page_list_gaps_marked 20 5 ltac:(by_eval)) as (rest & H1 & H2 & _).
  exists rest. split; [exact H1 | exact H2].
Defined.

(** X7: on a page that holds rows (pageIndex >= 0, pageSize >= 1 and
    pageIndex*pageSize < filteredRowCount) the row range shown, startRow to
    endRow, lies within 1..filteredRowCount and counts
    min(pageSize, filteredRowCount - pageIndex*pageSize) rows; the next page
    starts right after a full page; on a page past the end the range is
    inverted (endRow < startRow). *)
Theorem page_row_range (pageIndex pageSize filteredRowCount : Z) :
  0 <= pageIndex -> 1 <= pageSize ->
  let first := Pagination.startRow pageIndex pageSize in
  let last := Pagination.endRow pageIndex pageSize filteredRowCount in
  (pageIndex * pageSize < filteredRowCount ->
   1 <= first <= last /\ last <= filteredRowCount /\
   last - first + 1 = Z.min pageSize (filteredRowCount - pageIndex * pageSize)) /\
  ((pageIndex + 1) * pageSize <= filteredRowCount ->
   Pagination.startRow (pageIndex + 1) pageSize = last + 1) /\
  (filteredRowCount <= pageIndex * pageSize -> last < first).
Proof.
  intros Hp Hs first last. subst first last.
  unfold Pagination.startRow, Pagination.endRow.
  repeat split; intros; nia.
Qed.

Lemma page_row_range_witness :
  Pagination.startRow 2 10 = 21 /\ Pagination.endRow 2 10 25 = 25 /\
  Pagination.endRow 2 10 25 - Pagination.startRow 2 10 + 1 = 5.
Proof.
  destruct (page_row_range 2 10 25 ltac:(by_eval) ltac:(by_eval))
    as (Hin & _ & _).
  destruct (Hin ltac:(by_eval)) as (_ & _ & Hcount).
  split; [reflexivity|]. split; [reflexivity|]. exact Hcount.
Defined.

(** ** The global filter, continued *)


Lemma lowerChar_idempotent (c : ascii) : lowerChar (lowerChar c) = lowerChar c.
Proof.
  destruct c as [[] [] [] [] [] [] [] []]; reflexivity.
Qed.

Lemma toLowerCase_idempotent (s : string) :
  toLowerCase (toLowerCase s) = toLowerCase s.
Proof.
  induction s as [|c s IH]; [reflexivity|].
  simpl. now rewrite lowerChar_idempotent, IH.
Qed.






Lemma cellText_lowerValue (v : JsValue) :
  toLowerCase (cellText (lowerValue v)) = toLowerCase (cellText v).
Proof.
  destruct v; try reflexivity.
  unfold cellText. simpl. apply toLowerCase_idempotent.
Qed.

(** X9: the global filter ignores letter case, in the filter text and in
    the cells: two filter texts that agree up to case keep the same rows,
    and putting the string cells of a row in lower case does not change
    whether the row is kept. *)
Theorem global_filter_ignores_case (cells : list JsValue)
  (columnId text text' : string) :
  toLowerCase text = toLowerCase text' ->
  UseDataTable.globalFilterFn cells columnId (JsString text)
  = UseDataTable.globalFilterFn cells columnId (JsString text') /\
  UseDataTable.globalFilterFn cells columnId (JsString text)
  = UseDataTable.globalFilterFn (map lowerValue cells) columnId
      (JsString (toLowerCase text)).
Proof.
  intros Heq. split.
  - unfold UseDataTable.globalFilterFn. cbv zeta.
    change (toString (JsString text)) with text.
    change (toString (JsString text')) with text'.
    now rewrite Heq.
  - destruct (String.eqb_spec text EmptyString) as [->|Hne]; [reflexivity|].
    assert (Hne' : toLowerCase text <> EmptyString).
    { intros E. apply Hne. now apply toLowerCase_empty. }
    rewrite !globalFilterFn_active by assumption.
    rewrite toLowerCase_idempotent.
    induction cells as [|v cells IH]; [reflexivity|].
    simpl. now rewrite cellText_lowerValue, IH.
Qed.

Lemma global_filter_ignores_case_witness :
  UseDataTable.globalFilterFn [JsString "Acme Corp"] "customer" (JsString "ACME")
  = UseDataTable.globalFilterFn [JsString "Acme Corp"] "customer"
      (JsString "acme").
Proof.
  apply (global_filter_ignores_case [JsString "Acme Corp"] "customer"
           "ACME" "acme").
  reflexivity.
Defined.

(** ** The CSV export, continued *)

Lemma exportedGrid_rectangular (columns : list CsvExport.Column)
  (data : list JsObject) :
  Forall (fun fields => length fields = length columns)
         (exportedGrid columns data).
Proof.
  unfold exportedGrid. constructor; [apply length_map|].
  apply List.Forall_forall. intros fields Hin.
  apply in_map_iff in Hin as (row & <- & _). apply length_map.
Qed.

(** X10: for cell values of any kind and at least one column, the exported
    text reads back as a rectangular grid: one header row and one row per
    data element, each with one field per column, holding the text of the
    cell; null, undefined and a property the row does not have are written
    as empty fields. *)
Theorem csv_grid_shape (columns : list CsvExport.Column)
  (data : list JsObject) :
  columns <> [] ->
  let grid := parseCSV (CsvExport.generateCSV columns data) in
  grid = exportedGrid columns data /\
  length grid = S (length data) /\
  Forall (fun fields => length fields = length columns) grid /\
  (forall (row : JsObject) key,
     row !! key = None ->
     cellText (CsvExport.getCellValue row (CsvExport.AccessorKey key))
     = EmptyString) /\
  cellText JsNull = EmptyString /\ cellText JsUndefined = EmptyString.
Proof.
  intros Hne grid. subst grid. rewrite parseCSV_generateCSV by assumption.
  split; [reflexivity|]. split.
  - unfold exportedGrid. simpl. now rewrite length_map.
  - split; [apply exportedGrid_rectangular|].
    split; [|split; reflexivity].
    intros row key Hnone. simpl. unfold getProp. now rewrite Hnone.
Qed.

Lemma csv_grid_shape_witness :
  parseCSV (CsvExport.generateCSV [nameColumn; noteColumn] [trickyRow; blankRow])
  = [["Name, quoted"; "Note"]; [trickyValue; "plain"];
     [EmptyString; EmptyString]].
Proof.
  destruct (csv_grid_shape [nameColumn; noteColumn] [trickyRow; blankRow])
    as (Hgrid & _); [discriminate|].
  rewrite Hgrid. vm_compute. reflexivity.
Defined.

Lemma escapeCSV_escapeText (v : JsValue) :
  CsvExport.escapeCSV v = escapeText (cellText v).
Proof.
  unfold CsvExport.escapeCSV, cellText.
  destruct (isNullish v); reflexivity.
Qed.

(** X11: two cells are written the same way exactly when their texts are
    equal: the escaping loses nothing of the text, and it does not tell
    null or undefined from the empty string. *)
Theorem escapeCSV_same_text (v w : JsValue) :
  (CsvExport.escapeCSV v = CsvExport.escapeCSV w <-> cellText v = cellText w) /\
  CsvExport.escapeCSV JsNull = CsvExport.escapeCSV (JsString EmptyString).
Proof.
  split; [|reflexivity]. split.
  - intros Heq.
    pose proof (parseFrom_escapeCSV v EmptyString eq_refl) as Hv.
    pose proof (parseFrom_escapeCSV w EmptyString eq_refl) as Hw.
    rewrite Heq, Hw in Hv. simpl in Hv.
    rewrite !append_nil_r in Hv. now inversion Hv.
  - intros Heq. now rewrite !escapeCSV_escapeText, Heq.
Qed.

Lemma notSelectColumn_id (col : DataTable.ColumnDef) :
  DataTable.notSelectColumn col = true -> DataTable.idText col <> "_select".
Proof.
  unfold DataTable.notSelectColumn, DataTable.idText.
  destruct (DataTable.id col) as [i|]; [|discriminate].
  intros H ->. discriminate H.
Qed.

(** X12: the text the component exports reads back as the labels of the
    column definitions other than the selection column (the header string,
    or the id when the header is not a string), followed by one row per
    exported data element with the cell texts found by the accessor key,
    the accessor function or the id; no exported column has the id of the
    selection column. *)
Theorem export_reads_back (columns : list DataTable.ColumnDef)
  (enableRowSelection : bool) (table : TableInstance.Table) :
  List.filter DataTable.notSelectColumn columns <> [] ->
  let exported := List.filter DataTable.notSelectColumn columns in
  parseCSV (DataTable.handleCSVExport columns enableRowSelection table)
  = map exportHeader exported
    :: map (fun d =>
              map (fun col =>
                     cellText
                       (CsvExport.getCellValue d (DataTable.exportAccessor col)))
                  exported)
           (DataTable.exportData enableRowSelection table) /\
  Forall (fun c => CsvExport.id c <> "_select")
         (DataTable.exportColumns columns).
Proof.
  intros Hne exported. subst exported. split.
  - unfold DataTable.handleCSVExport.
    rewrite parseCSV_generateCSV.
    + unfold exportedGrid, DataTable.exportColumns.
      rewrite !map_map. f_equal.
      apply map_ext. intros d. now rewrite map_map.
    + unfold DataTable.exportColumns.
      destruct (List.filter DataTable.notSelectColumn columns);
        [contradiction | discriminate].
  - unfold DataTable.exportColumns. apply List.Forall_forall.
    intros c Hin. apply in_map_iff in Hin as (col & <- & Hcol).
    apply filter_In in Hcol as [_ Hcol]. simpl.
    now apply notSelectColumn_id.
Qed.

Lemma export_reads_back_witness :
  parseCSV
    (DataTable.handleCSVExport
       [ {| DataTable.id := Some "_select"; DataTable.header := None;
            DataTable.accessorKey := None; DataTable.accessorFn := None |};
         {| DataTable.id := None; DataTable.header := Some "Name";
            DataTable.accessorKey := Some "id"; DataTable.accessorFn := None |};
         {| DataTable.id := Some "v"; DataTable.header := None;
            DataTable.accessorKey := None; DataTable.accessorFn := None |} ]
       true (exampleTable sortedState))
  = [["Name"; "v"]; ["a"; "3"]; ["b"; "1"]; ["c"; "2"]].
Proof.
  match goal with
  | |- parseCSV (DataTable.handleCSVExport ?cols ?b ?t) = _ =>
      destruct (export_reads_back cols b t) as [H _]; [discriminate|]
  end.
  rewrite H. vm_compute. reflexivity.
Defined.

(** ** The name of the downloaded file *)

Lemma includes_str1_nil (c : ascii) : includes EmptyString (str1 c) = false.
Proof. reflexivity. Qed.

Lemma includes_str1_app (a b : string) (c : ascii) :
  includes (a +:+ b) (str1 c) = includes a (str1 c) || includes b (str1 c).
Proof.
  induction a as [|x a IH]; [reflexivity|].
  rewrite append_cons, !includes_str1_cons, IH. apply orb_assoc.
Qed.

Lemma replaceTColon_clean (s : string) :
  includes (CsvDownload.replaceTColon s) (str1 ":"%char) = false /\
  includes (CsvDownload.replaceTColon s) (str1 "T"%char) = false.
Proof.
  induction s as [|c s [IH1 IH2]]; [split; reflexivity|].
  simpl CsvDownload.replaceTColon. rewrite !includes_str1_cons, IH1, IH2.
  destruct (Ascii.eqb_spec c "T"%char) as [->|HT]; [split; reflexivity|].
  destruct (Ascii.eqb_spec c ":"%char) as [->|HC]; [split; reflexivity|].
  simpl orb at 1 3.
  destruct (Ascii.eqb_spec c ":"%char); [contradiction|].
  destruct (Ascii.eqb_spec c "T"%char); [contradiction|].
  split; reflexivity.
Qed.

Lemma replaceTColon_length (s : string) :
  String.length (CsvDownload.replaceTColon s) = String.length s.
Proof. induction s as [|c s IH]; simpl; [reflexivity | now rewrite IH]. Qed.

Lemma substring_length_le (n : nat) (s : string) :
  (String.length (String.substring 0 n s) <= n)%nat.
Proof.
  revert s. induction n as [|n IH]; intros s.
  - destruct s; simpl; lia.
  - destruct s as [|c s]; simpl; [lia|]. specialize (IH s). lia.
Qed.

Lemma append_length (a b : string) :
  String.length (a +:+ b) = (String.length a + String.length b)%nat.
Proof.
  induction a as [|x a IH]; [reflexivity|].
  rewrite append_cons. simpl. now rewrite IH.
Qed.

(** X13: the name of the downloaded file is the given name (export when
    none is given), the timestamp part and the extension .csv.  Whatever
    the clock returns, the timestamp part has no colon and no letter T and
    at most 20 characters, so a name without a colon gives a file name
    without a colon; without timestamp the file name is the name followed
    by .csv. *)
Theorem download_filename (filename : option string)
  (includeTimestamp : option bool) (iso : string) :
  let name := match filename with Some f => f | None => "export" end in
  let stamp :=
    CsvDownload.timestamp
      (match includeTimestamp with Some b => b | None => true end) iso in
  CsvDownload.fullFilename filename includeTimestamp iso
  = name +:+ stamp +:+ ".csv" /\
  includes stamp (str1 ":"%char) = false /\
  includes stamp (str1 "T"%char) = false /\
  (String.length stamp <= 20)%nat /\
  (includes name (str1 ":"%char) = false ->
   includes (CsvDownload.fullFilename filename includeTimestamp iso)
            (str1 ":"%char) = false) /\
  (includeTimestamp = Some false ->
   CsvDownload.fullFilename filename includeTimestamp iso = name +:+ ".csv").
Proof.
  intros name stamp.
  assert (Hclean : includes stamp (str1 ":"%char) = false /\
                   includes stamp (str1 "T"%char) = false /\
                   (String.length stamp <= 20)%nat).
  { subst stamp. unfold CsvDownload.timestamp.
    destruct (match includeTimestamp with Some b => b | None => true end).
    - rewrite !includes_str1_cons.
      destruct (replaceTColon_clean (String.substring 0 19 iso)) as [-> ->].
      repeat split. simpl String.length. rewrite replaceTColon_length.
      pose proof (substring_length_le 19 iso). lia.
    - repeat split. simpl. lia. }
  destruct Hclean as (H1 & H2 & H3).
  split; [reflexivity|]. split; [exact H1|]. split; [exact H2|].
  split; [exact H3|]. split.
  - intros Hname. unfold CsvDownload.fullFilename. fold name. fold stamp.
    now rewrite !includes_str1_app, Hname, H1.
  - intros ->. reflexivity.
Qed.

Lemma download_filename_witness :
  CsvDownload.fullFilename (Some "sales-transactions") (Some true)
    "2026-02-15T10:30:45.123Z"
  = "sales-transactions_2026-02-15-10-30-45.csv" /\
  includes (CsvDownload.fullFilename (Some "sales-transactions") (Some true)
              "2026-02-15T10:30:45.123Z") (str1 ":"%char) = false.
Proof.
  split; [reflexivity|].
  destruct (download_filename (Some "sales-transactions") (Some true)
              "2026-02-15T10:30:45.123Z") as (_ & _ & _ & _ & H & _).
  apply H. reflexivity.
Defined.

(** ** The actions of the hook and of the component *)

(** X14: clearing the filters and clearing the selection do not interfere:
    they commute, each is idempotent, clearing the selection leaves
    [hasActiveFilters] as it was, and [hasActiveFilters] is false exactly
    when the global filter is empty and no column filter is set, which is the
    state [clearAllFilters] leaves. *)
Theorem filter_actions_compose (st : UseDataTable.State) :
  UseDataTable.clearAllFilters (UseDataTable.clearAllFilters st)
    = UseDataTable.clearAllFilters st /\
  UseDataTable.clearSelection (UseDataTable.clearSelection st)
    = UseDataTable.clearSelection st /\
  UseDataTable.clearSelection (UseDataTable.clearAllFilters st)
    = UseDataTable.clearAllFilters (UseDataTable.clearSelection st) /\
  UseDataTable.hasActiveFilters (UseDataTable.clearSelection st)
    = UseDataTable.hasActiveFilters st /\
  (UseDataTable.hasActiveFilters st = false <->
   UseDataTable.globalFilter st = EmptyString /\
   UseDataTable.columnFilters st = []).
Proof.
  destruct st as [so cf gf rs [pi ps]].
  repeat split; simpl in *.
  - unfold UseDataTable.hasActiveFilters in H. simpl in H.
    apply orb_false_elim in H as [H _].
    destruct (String.eqb_spec gf EmptyString); [assumption | discriminate H].
  - unfold UseDataTable.hasActiveFilters in H. simpl in H.
    apply orb_false_elim in H as [_ H].
    destruct cf; [reflexivity | discriminate H].
  - intros [-> ->]. reflexivity.
Qed.

(** X15: a batch action reaches the handler only with a non-empty list of
    selected rows: when the action is passed on, a handler was given, row
    selection is on, and the rows passed are the rows of the selected row
    model, at least one; without handler, with row selection off, or with
    nothing selected, no call is made. *)
Theorem batch_action_needs_selection (onBatchAction enableRowSelection : bool)
  (table : TableInstance.Table) (actionId : string) :
  match BatchAction.handleBatchAction onBatchAction
          (UseDataTable.selectedRows enableRowSelection table) actionId with
  | Some (action, rows) =>
      action = actionId /\ rows <> [] /\
      onBatchAction = true /\ enableRowSelection = true /\
      rows = map TableInstance.original
                 (TableInstance.getSelectedRowModel table)
  | None =>
      onBatchAction = false \/ enableRowSelection = false \/
      TableInstance.getSelectedRowModel table = []
  end.
Proof.
  unfold BatchAction.handleBatchAction, UseDataTable.selectedRows.
  destruct onBatchAction; [|now left].
  destruct enableRowSelection; [|right; now left].
  simpl. destruct (TableInstance.getSelectedRowModel table) as [|r rs];
    simpl; [right; now right|].
  repeat split. discriminate.
Qed.
